(** * Polly-API client (src/client.py): request building and status mapping

    The module has four functions, [register_user], [get_polls],
    [vote_on_poll] and [get_poll_results].  Each builds one request, hands it
    to the [requests] library and classifies the response by its status
    code.  The embedding below keeps that shape: the functions are written in
    a small state-and-exception monad over a world that holds the remote
    service and the log of the calls made to [requests]. *)

From Stdlib Require Import ZArith String Ascii List Bool Lia DecimalString.
From Stdlib Require Import DecimalPos DecimalZ.
Import ListNotations.
Local Open Scope string_scope.
Local Open Scope Z_scope.
Set Warnings "-register-all".

(** ** Python values *)

(** A Python [str] is a [string]; a character stands for the code point of
    its byte value, so the strings of the model are the Python strings
    whose code points are all below 256.  A Python [int] is unbounded,
    hence [Z]. *)

(** The decimal text of an [int]: digits, with a leading minus sign for a
    negative number.  It is what [str(n)], the f-string field [{n}] and
    [json.dumps] write when the conversion is allowed, see [int_str_ok]. *)
Definition py_str_int (n : Z) : string :=
  NilZero.string_of_int (Z.to_int n).

(** CPython (3.11 and later, and the patched earlier releases) refuses to
    convert an [int] of more than [sys.get_int_max_str_digits()] decimal
    digits, 4300 unless the process changes it, to or from text: the
    conversion raises a [ValueError].  The sign does not count. *)
Definition int_max_str_digits : Z := 4300.

Definition int_str_ok (n : Z) : bool :=
  Z.abs n <? 10 ^ int_max_str_digits.
Arguments int_str_ok : simpl never.

(** The values [json.loads] produces and [json.dumps] consumes.  A [dict]
    keeps the insertion order of its keys, so it is an association list.  A
    [float] is kept as the text [json] writes for it: the client never
    computes with one. *)
Inductive Json : Type :=
| JNull
| JBool (b : bool)
| JInt (n : Z)
| JFloat (repr : string)
| JString (s : string)
| JArray (items : list Json)
| JObject (fields : list (string * Json)).

Module json.

Definition dquote : string := String "034"%char EmptyString.
Definition backslash : string := String "092"%char EmptyString.

Definition hex_digit (n : N) : ascii :=
  if (n <? 10)%N then ascii_of_N (48 + n) else ascii_of_N (87 + n).

(** ['\\u{0:04x}'.format(n)] for a code point below 0x10000. *)
Definition u_escape (n : N) : string :=
  backslash ++ "u"
    ++ String (hex_digit (N.modulo (N.div n 4096) 16))
        (String (hex_digit (N.modulo (N.div n 256) 16))
          (String (hex_digit (N.modulo (N.div n 16) 16))
            (String (hex_digit (N.modulo n 16)) EmptyString))).

(** The replacement [encode_basestring_ascii] makes for one character:
    the table ESCAPE_DCT first, then the printable ASCII range [' '..'~']
    unchanged, then the [\uXXXX] form.  For the code points from 256 on,
    which the strings of the model do not hold, Python writes [\uXXXX]
    too, and a pair of surrogate escapes beyond U+FFFF. *)
Definition escape_char (c : ascii) : string :=
  let n := N_of_ascii c in
  if (n =? 34)%N then backslash ++ dquote
  else if (n =? 92)%N then backslash ++ backslash
  else if (n =? 8)%N then backslash ++ "b"
  else if (n =? 12)%N then backslash ++ "f"
  else if (n =? 10)%N then backslash ++ "n"
  else if (n =? 13)%N then backslash ++ "r"
  else if (n =? 9)%N then backslash ++ "t"
  else if ((32 <=? n) && (n <=? 126))%N then String c EmptyString
  else u_escape n.

Fixpoint escape (s : string) : string :=
  match s with
  | EmptyString => EmptyString
  | String c rest => escape_char c ++ escape rest
  end.

Definition encode_string (s : string) : string :=
  dquote ++ escape s ++ dquote.

(** [json.dumps(obj)] with the default arguments: [ensure_ascii=True],
    item separator [", "] and key separator [": "]. *)
Fixpoint dumps (obj : Json) : string :=
  match obj with
  | JNull => "null"
  | JBool true => "true"
  | JBool false => "false"
  | JInt n => py_str_int n
  | JFloat repr => repr
  | JString s => encode_string s
  | JArray items =>
      let fix join (l : list Json) : string :=
        match l with
        | [] => ""
        | [x] => dumps x
        | x :: rest => dumps x ++ ", " ++ join rest
        end in
      "[" ++ join items ++ "]"
  | JObject fields =>
      let fix join (l : list (string * Json)) : string :=
        match l with
        | [] => ""
        | [(k, v)] => encode_string k ++ ": " ++ dumps v
        | (k, v) :: rest => encode_string k ++ ": " ++ dumps v ++ ", " ++ join rest
        end in
      "{" ++ join fields ++ "}"
  end.

(** [json.dumps] raises the [ValueError] of the digit limit when the value
    holds an [int] whose text it may not write. *)
Fixpoint ints_ok (obj : Json) : bool :=
  match obj with
  | JInt n => int_str_ok n
  | JArray items => forallb ints_ok items
  | JObject fields => forallb (fun field => ints_ok (snd field)) fields
  | _ => true
  end.

End json.

(** [len(x)] for the decoded values that have a length. *)
Definition py_len (x : Json) : option Z :=
  match x with
  | JString s => Some (Z.of_nat (String.length s))
  | JArray items => Some (Z.of_nat (List.length items))
  | JObject fields => Some (Z.of_nat (List.length fields))
  | _ => None
  end.

(** ** The [requests] library *)

Inductive Method : Type := GET | POST.

(** One call of [requests.get] or [requests.post]: the URL, the [headers]
    and [params] dictionaries (empty when the argument is not given) and the
    [data] body. *)
Record Request : Type := mkRequest {
  method : Method;
  url : string;
  headers : list (string * string);
  params : list (string * Z);
  data : option string
}.

(** Why [Response.json()] can fail to give a value: the body is not JSON
    ([requests.exceptions.JSONDecodeError]), it holds an integer beyond the
    digit limit (a plain [ValueError] of [int]), or it is nested deeper than
    the interpreter's recursion limit ([RecursionError]). *)
Inductive DecodeFailure : Type :=
| NotJSON
| IntegerTooLong
| NestedTooDeep.

(** A [requests.Response]: the attribute [status_code], and what the method
    [json()] finds in the body: the decoded value, or [None] and, in
    [json_failure], why there is none ([json_failure] says nothing when
    there is a value). *)
Record Response : Type := Build_Response {
  status_code : Z;
  json_body : option Json;
  json_failure : DecodeFailure
}.

(** The response with the given status and decoded body, or with a body
    that is not JSON. *)
Definition mkResponse (status : Z) (body : option Json) : Response :=
  Build_Response status body NotJSON.

(** The exceptions of [requests] that come from the connection itself. *)
Inductive TransportFailure : Type :=
| ConnectionError
| ReadTimeout
| TooManyRedirects
| MissingSchema
| InvalidURL
| InvalidHeader.

Inductive Reply : Type :=
| Answer (response : Response)
| Failure (why : TransportFailure).

(** The exceptions a call of the client can end with.  [HTTPError] is the
    one [raise_for_status] raises and carries the response, as
    [HTTPError(msg, response=self)] does; [JSONDecodeError] is the one
    [Response.json] raises for a body that is not JSON.  [ValueError] is
    the exception of the [raise ValueError(message)] statements of the
    client; [IntDigitsError] is the plain [ValueError] the interpreter
    raises at the digit limit of [int], and [RecursionError] the one of
    the recursion limit. *)
Inductive Exception : Type :=
| ValueError (message : string)
| HTTPError (response : Response)
| JSONDecodeError
| RequestException (why : TransportFailure)
| IntDigitsError
| RecursionError.

Inductive Outcome (A : Type) : Type :=
| Returned (value : A)
| Raised (e : Exception).
Arguments Returned {A} value.
Arguments Raised {A} e.

(** The names the specification gives to the error conditions, as the
    exceptions the source raises for them. *)
Definition DuplicateUsername : Exception :=
  ValueError "Username already registered".
Definition Unauthorized : Exception :=
  ValueError "Unauthorized - invalid or missing access token".
Definition NotFound_vote : Exception :=
  ValueError "Poll or option not found".
Definition NotFound_results : Exception :=
  ValueError "Poll not found".
Definition RequestFailed (response : Response) : Exception :=
  HTTPError response.
Definition RequestFailed_code (e : Exception) : option Z :=
  match e with
  | HTTPError response => Some (status_code response)
  | _ => None
  end.

(** What [response.json()] gives, as a value. *)
Definition decode_exception (why : DecodeFailure) : Exception :=
  match why with
  | NotJSON => JSONDecodeError
  | IntegerTooLong => IntDigitsError
  | NestedTooDeep => RecursionError
  end.

Definition decoded (response : Response) : Outcome Json :=
  match json_body response with
  | Some body => Returned body
  | None => Raised (decode_exception (json_failure response))
  end.

Definition default_base_url : string := "http://localhost:8000".

Section Client.

(** The remote service, seen through [requests]: a state machine that
    answers each call and moves on. *)
Context {Server : Type}.
Variable serve : Request -> Server -> Reply * Server.

Record World : Type := mkWorld {
  sent : list Request;
  server : Server
}.

Definition M (A : Type) : Type := World -> Outcome A * World.

Definition ret {A} (a : A) : M A := fun w => (Returned a, w).

Definition raise {A} (e : Exception) : M A := fun w => (Raised e, w).

Definition bind {A B} (m : M A) (k : A -> M B) : M B :=
  fun w =>
    match m w with
    | (Returned a, w') => k a w'
    | (Raised e, w') => (Raised e, w')
    end.

Notation "x <- m ;; k" := (bind m (fun x => k))
  (at level 100, m at next level, right associativity).
Notation "m ;; k" := (bind m (fun _ => k))
  (at level 100, right associativity).

(** The single entry into the network: the call is logged, the service
    answers, and a failure of the connection is raised. *)
Definition send (rq : Request) : M Response :=
  fun w =>
    let (reply, server') := serve rq (server w) in
    let w' := {| sent := sent w ++ [rq]; server := server' |} in
    match reply with
    | Answer response => (Returned response, w')
    | Failure why => (Raised (RequestException why), w')
    end.

Definition requests_post (url : string) (headers : list (string * string))
    (data : string) : M Response :=
  send {| method := POST; url := url; headers := headers;
          params := []; data := Some data |}.

Definition requests_get (url : string) (params : list (string * Z))
    : M Response :=
  send {| method := GET; url := url; headers := [];
          params := params; data := None |}.

(** [Response.raise_for_status]: an [HTTPError] for a client error
    (400 to 499) or a server error (500 to 599), nothing otherwise. *)
Definition raise_for_status (response : Response) : M unit :=
  if (400 <=? status_code response) && (status_code response <? 500)
  then raise (HTTPError response)
  else if (500 <=? status_code response) && (status_code response <? 600)
  then raise (HTTPError response)
  else ret tt.

(** [Response.json]. *)
Definition response_json (response : Response) : M Json :=
  fun w => (decoded response, w).

(** [str(n)], also the f-string field [{n}], with its digit limit. *)
Definition int_str (n : Z) : M string :=
  if int_str_ok n then ret (py_str_int n) else raise IntDigitsError.

(** [json.dumps(obj)], with the digit limit of the integers it writes. *)
Definition json_dumps (obj : Json) : M string :=
  if json.ints_ok obj then ret (json.dumps obj) else raise IntDigitsError.

(** *** The four functions of client.py *)

Definition register_user (username password base_url : string) : M Json :=
  let url := base_url ++ "/register" in
  let headers := [("Content-Type", "application/json")] in
  let payload := JObject [("username", JString username);
                          ("password", JString password)] in
  body <- json_dumps payload ;;
  response <- requests_post url headers body ;;
  if status_code response =? 200 then
    response_json response
  else if status_code response =? 400 then
    raise (ValueError "Username already registered")
  else
    (raise_for_status response ;;
     response_json response).

Definition get_polls (skip limit : Z) (base_url : string) : M Json :=
  let url := base_url ++ "/polls" in
  let params := [("skip", skip); ("limit", limit)] in
  response <- requests_get url params ;;
  raise_for_status response ;;
  response_json response.

Definition vote_on_poll (poll_id option_id : Z)
    (access_token base_url : string) : M Json :=
  poll <- int_str poll_id ;;
  let url := base_url ++ "/polls/" ++ poll ++ "/vote" in
  let headers := [("Content-Type", "application/json");
                  ("Authorization", "Bearer " ++ access_token)] in
  let payload := JObject [("option_id", JInt option_id)] in
  body <- json_dumps payload ;;
  response <- requests_post url headers body ;;
  if status_code response =? 200 then
    response_json response
  else if status_code response =? 401 then
    raise (ValueError "Unauthorized - invalid or missing access token")
  else if status_code response =? 404 then
    raise (ValueError "Poll or option not found")
  else
    (raise_for_status response ;;
     response_json response).

Definition get_poll_results (poll_id : Z) (base_url : string) : M Json :=
  poll <- int_str poll_id ;;
  let url := base_url ++ "/polls/" ++ poll ++ "/results" in
  response <- requests_get url [] ;;
  if status_code response =? 200 then
    response_json response
  else if status_code response =? 404 then
    raise (ValueError "Poll not found")
  else
    (raise_for_status response ;;
     response_json response).

End Client.

Arguments World : clear implicits.
Arguments mkWorld {Server} sent server.
Arguments sent {Server} w.
Arguments server {Server} w.

(** ** The requests the four functions make *)

Definition register_request (username password base_url : string) : Request :=
  {| method := POST;
     url := base_url ++ "/register";
     headers := [("Content-Type", "application/json")];
     params := [];
     data := Some (json.dumps (JObject [("username", JString username);
                                        ("password", JString password)])) |}.

Definition polls_request (skip limit : Z) (base_url : string) : Request :=
  {| method := GET;
     url := base_url ++ "/polls";
     headers := [];
     params := [("skip", skip); ("limit", limit)];
     data := None |}.

Definition vote_request (poll_id option_id : Z)
    (access_token base_url : string) : Request :=
  {| method := POST;
     url := base_url ++ "/polls/" ++ py_str_int poll_id ++ "/vote";
     headers := [("Content-Type", "application/json");
                 ("Authorization", "Bearer " ++ access_token)];
     params := [];
     data := Some (json.dumps (JObject [("option_id", JInt option_id)])) |}.

Definition results_request (poll_id : Z) (base_url : string) : Request :=
  {| method := GET;
     url := base_url ++ "/polls/" ++ py_str_int poll_id ++ "/results";
     headers := [];
     params := [];
     data := None |}.

(** What the service answers to [rq] in the world [w]. *)
Definition reply_to {Server : Type}
    (serve : Request -> Server -> Reply * Server)
    (rq : Request) (w : World Server) : Reply :=
  fst (serve rq (server w)).

(** ** Services used in the examples *)

(** A service that gives the same response to every call. *)
Definition always (response : Response) : Request -> unit -> Reply * unit :=
  fun _ s => (Answer response, s).

(** A service that cannot be reached. *)
Definition unreachable : Request -> unit -> Reply * unit :=
  fun _ s => (Failure ConnectionError, s).

Definition fresh : World unit := mkWorld [] tt.

(** A service that plays a script: each call takes the next reply, and the
    connection fails once the script is over. *)
Definition scripted (rq : Request) (script : list Reply)
    : Reply * list Reply :=
  match script with
  | [] => (Failure ConnectionError, [])
  | reply :: rest => (reply, rest)
  end.

(** The world after one call of [requests] with [rq]. *)
Definition after {Server : Type}
    (serve : Request -> Server -> Reply * Server)
    (rq : Request) (w : World Server) : World Server :=
  mkWorld (sent w ++ [rq]) (snd (serve rq (server w))).

(** [limit] bounds the length of a returned value. *)
Definition length_at_most (limit : Z) (value : Json) : Prop :=
  match py_len value with
  | Some n => n <= limit
  | None => False
  end.

(** Data of the examples. *)
Definition alice_record : Json :=
  JObject [("id", JInt 1); ("username", JString "alice")].

Definition vote_record : Json :=
  JObject [("id", JInt 7); ("option_id", JInt 2)].

Definition poll_results : Json :=
  JObject [("question", JString "Tabs or spaces?");
           ("results", JArray [JObject [("text", JString "tabs");
                                        ("vote_count", JInt 3)];
                               JObject [("text", JString "spaces");
                                        ("vote_count", JInt 4)]])].

Definition two_polls : list Json :=
  [JObject [("id", JInt 1); ("question", JString "Tabs or spaces?")];
   JObject [("id", JInt 2); ("question", JString "Vim or Emacs?")]].

Definition detail (message : string) : Json :=
  JObject [("detail", JString message)].

(** ** Reading the encoded text *)

(** [c in s]. *)
Fixpoint contains (c : ascii) (s : string) : bool :=
  match s with
  | EmptyString => false
  | String x rest => Ascii.eqb x c || contains c rest
  end.

(** Every character is printable ASCII, from the space to the tilde. *)
Fixpoint printable_ascii (s : string) : bool :=
  match s with
  | EmptyString => true
  | String c rest =>
      ((32 <=? N_of_ascii c) && (N_of_ascii c <=? 126))%N
      && printable_ascii rest
  end.

Definition hex_value (c : ascii) : option N :=
  let n := N_of_ascii c in
  if ((48 <=? n) && (n <=? 57))%N then Some (n - 48)%N
  else if ((97 <=? n) && (n <=? 102))%N then Some (n - 87)%N
  else if ((65 <=? n) && (n <=? 70))%N then Some (n - 55)%N
  else None.

(** One character of a JSON string, read the way the decoder of [json]
    scans a string in strict mode: [None] at the closing quote, at a raw
    control character and at a malformed escape; a [\uXXXX] escape is read
    when its code point is below 256.  It undoes [json.escape_char] and
    serves the proofs that the encoding loses nothing. *)
Definition unescape_char (s : string) : option (ascii * string) :=
  match s with
  | EmptyString => None
  | String c rest =>
      if (N_of_ascii c =? 34)%N then None
      else if (N_of_ascii c =? 92)%N then
        match rest with
        | EmptyString => None
        | String e rest' =>
            if (N_of_ascii e =? 117)%N then
              match rest' with
              | String h3 (String h2 (String h1 (String h0 rest''))) =>
                  match hex_value h3, hex_value h2,
                        hex_value h1, hex_value h0 with
                  | Some d3, Some d2, Some d1, Some d0 =>
                      let n := (d3 * 4096 + d2 * 256 + d1 * 16 + d0)%N in
                      if (n <? 256)%N then Some (ascii_of_N n, rest'')
                      else None
                  | _, _, _, _ => None
                  end
              | _ => None
              end
            else if (N_of_ascii e =? 34)%N then Some ("034"%char, rest')
            else if (N_of_ascii e =? 92)%N then Some ("092"%char, rest')
            else if (N_of_ascii e =? 47)%N then Some ("047"%char, rest')
            else if (N_of_ascii e =? 98)%N then Some ("008"%char, rest')
            else if (N_of_ascii e =? 102)%N then Some ("012"%char, rest')
            else if (N_of_ascii e =? 110)%N then Some ("010"%char, rest')
            else if (N_of_ascii e =? 114)%N then Some ("013"%char, rest')
            else if (N_of_ascii e =? 116)%N then Some ("009"%char, rest')
            else None
        end
      else if (N_of_ascii c <? 32)%N then None
      else Some (c, rest)
  end.

(** ** [str] and [repr] of the decoded values *)

Module py.

Definition squote_char : ascii := "039"%char.
Definition dquote_char : ascii := "034"%char.

(** The two hexadecimal digits of the escape [\xhh]. *)
Definition hex2 (n : N) : string :=
  String (json.hex_digit (N.div n 16))
    (String (json.hex_digit (N.modulo n 16)) EmptyString).

(** [str.isprintable] for a code point from 128 to 255: the controls up to
    159, the no-break space 160 and the soft hyphen 173 are not. *)
Definition isprintable_high (n : N) : bool :=
  ((161 <=? n) && negb (n =? 173))%N.

(** [repr] of a [str] takes single quotes, and double quotes when the text
    has a single quote and no double quote. *)
Definition repr_quote (s : string) : ascii :=
  if contains squote_char s && negb (contains dquote_char s)
  then dquote_char else squote_char.

Definition repr_char (quote c : ascii) : string :=
  let n := N_of_ascii c in
  if (Ascii.eqb c quote || (n =? 92)%N)%bool
  then json.backslash ++ String c EmptyString
  else if (n =? 9)%N then json.backslash ++ "t"
  else if (n =? 10)%N then json.backslash ++ "n"
  else if (n =? 13)%N then json.backslash ++ "r"
  else if ((n <? 32) || (n =? 127))%N then json.backslash ++ "x" ++ hex2 n
  else if (n <? 127)%N then String c EmptyString
  else if isprintable_high n then String c EmptyString
  else json.backslash ++ "x" ++ hex2 n.

Fixpoint repr_chars (quote : ascii) (s : string) : string :=
  match s with
  | EmptyString => EmptyString
  | String c rest => repr_char quote c ++ repr_chars quote rest
  end.

Definition repr_str (s : string) : string :=
  let quote := repr_quote s in
  String quote (repr_chars quote s ++ String quote EmptyString).

(** [str] of a [float], from the text [json] writes for it: the same text,
    but for the three values that are not finite. *)
Definition float_str (text : string) : string :=
  if String.eqb text "NaN" then "nan"
  else if String.eqb text "Infinity" then "inf"
  else if String.eqb text "-Infinity" then "-inf"
  else text.

Fixpoint repr (value : Json) : string :=
  match value with
  | JNull => "None"
  | JBool true => "True"
  | JBool false => "False"
  | JInt n => py_str_int n
  | JFloat text => float_str text
  | JString s => repr_str s
  | JArray items =>
      let fix join (l : list Json) : string :=
        match l with
        | [] => ""
        | [x] => repr x
        | x :: rest => repr x ++ ", " ++ join rest
        end in
      "[" ++ join items ++ "]"
  | JObject fields =>
      let fix join (l : list (string * Json)) : string :=
        match l with
        | [] => ""
        | [(k, v)] => repr_str k ++ ": " ++ repr v
        | (k, v) :: rest => repr_str k ++ ": " ++ repr v ++ ", " ++ join rest
        end in
      "{" ++ join fields ++ "}"
  end.

(** [str(value)], which is also what an f-string field [{value}] gives. *)
Definition str (value : Json) : string :=
  match value with
  | JString s => s
  | _ => repr value
  end.

End py.

(** ** The script under [if __name__ == "__main__"] *)

(** What the statements of the script can raise: an exception of the kinds
    the client raises, a [KeyError] for a missing key, a [TypeError] for a
    value of the wrong type, and the [UnicodeEncodeError] of [print] for a
    text the encoding of stdout cannot write. *)
Inductive Error : Type :=
| ClientError (e : Exception)
| KeyError (key : string)
| TypeError
| UnicodeEncodeError.

(** [isinstance(e, ValueError)]: besides [ValueError] itself, the decoder's
    error, the error of the digit limit, the exceptions of [requests] for a
    bad URL or header and [UnicodeEncodeError] derive from it. *)
Definition is_ValueError (e : Error) : bool :=
  match e with
  | ClientError (ValueError _) => true
  | ClientError JSONDecodeError => true
  | ClientError IntDigitsError => true
  | ClientError (RequestException MissingSchema) => true
  | ClientError (RequestException InvalidURL) => true
  | ClientError (RequestException InvalidHeader) => true
  | UnicodeEncodeError => true
  | _ => false
  end.

(** [isinstance(e, requests.exceptions.RequestException)]. *)
Definition is_RequestException (e : Error) : bool :=
  match e with
  | ClientError (HTTPError _) => true
  | ClientError JSONDecodeError => true
  | ClientError (RequestException _) => true
  | _ => false
  end.

(** The four [except] clauses of the script, in their order: the class each
    one catches and the text its [print] puts before [str(e)]. *)
Definition except_clauses : list ((Error -> bool) * string) :=
  [(is_ValueError, "Error: ");
   (is_RequestException, "Request error: ");
   (is_ValueError, "Registration error: ");
   (is_RequestException, "Request error: ")].

(** The first clause that catches [e], with its position. *)
Fixpoint first_match (clauses : list ((Error -> bool) * string))
    (position : nat) (e : Error) : option (nat * string) :=
  match clauses with
  | [] => None
  | (catches, text) :: rest =>
      if catches e then Some (position, text)
      else first_match rest (S position) e
  end.

(** [container[key]] for a [str] key. *)
Definition subscript (container : Json) (key : string) : Error + Json :=
  match container with
  | JObject fields =>
      match find (fun field => String.eqb (fst field) key) fields with
      | Some (_, value) => inr value
      | None => inl (KeyError key)
      end
  | _ => inl TypeError
  end.

(** The items a [for] loop takes from a value: the elements of a list, the
    keys of a dict, the characters of a str. *)
Definition py_iter (value : Json) : option (list Json) :=
  match value with
  | JArray items => Some items
  | JObject fields => Some (map (fun field => JString (fst field)) fields)
  | JString s =>
      Some (map (fun c => JString (String c EmptyString))
              (list_ascii_of_string s))
  | _ => None
  end.

(** An f-string field [{value}]: [str(value)], with the digit limit of the
    integers it writes. *)
Definition format_field (value : Json) : Error + string :=
  if json.ints_ok value then inr (py.str value)
  else inl (ClientError IntDigitsError).

(** The f-string of the loop body; its fields are evaluated and formatted
    from left to right. *)
Definition poll_line (poll : Json) : Error + string :=
  match subscript poll "question" with
  | inl e => inl e
  | inr question =>
      match format_field question with
      | inl e => inl e
      | inr question_text =>
          match subscript poll "id" with
          | inl e => inl e
          | inr id =>
              match format_field id with
              | inl e => inl e
              | inr id_text =>
                  inr ("  - " ++ question_text ++ " (ID: " ++ id_text ++ ")")
              end
          end
      end
  end.

(** How the script ends: normally, or with the traceback of an exception no
    clause caught. *)
Inductive Exit : Type :=
| Finished
| Traceback (e : Error).

Section Script.

Context {Server : Type}.
Variable serve : Request -> Server -> Reply * Server.

(** [str(e)] for the exceptions whose text the libraries make. *)
Variable describe : Error -> string.

(** The texts the encoding of stdout can write. *)
Variable encodable : string -> bool.

Definition error_str (e : Error) : string :=
  match e with
  | ClientError (ValueError message) => message
  | _ => describe e
  end.

(** [print(line)], on the lines printed so far. *)
Definition print (line : string) (stdout : list string)
    : option Error * list string :=
  if encodable line then (None, (stdout ++ [line])%list)
  else (Some UnicodeEncodeError, stdout).

(** The loop [for poll in polls: print(...)]. *)
Fixpoint print_polls (polls : list Json) (stdout : list string)
    : option Error * list string :=
  match polls with
  | [] => (None, stdout)
  | poll :: rest =>
      match poll_line poll with
      | inl e => (Some e, stdout)
      | inr line =>
          match print line stdout with
          | (None, stdout') => print_polls rest stdout'
          | (Some e, stdout') => (Some e, stdout')
          end
      end
  end.

(** The two statements after the call of [get_polls]. *)
Definition print_report (polls : Json) : option Error * list string :=
  match py_len polls with
  | None => (Some TypeError, [])
  | Some n =>
      match print ("Retrieved " ++ py_str_int n ++ " polls:") [] with
      | (Some e, stdout) => (Some e, stdout)
      | (None, stdout) =>
          match py_iter polls with
          | Some items => print_polls items stdout
          | None => (Some TypeError, stdout)
          end
      end
  end.

Definition main (w : World Server) : Exit * list string * World Server :=
  let (outcome, w') := get_polls serve 0 5 default_base_url w in
  let (raised, stdout) :=
    match outcome with
    | Returned polls => print_report polls
    | Raised e => (Some (ClientError e), [])
    end in
  match raised with
  | None => (Finished, stdout, w')
  | Some e =>
      match first_match except_clauses 0 e with
      | Some (_, text) =>
          match print (text ++ error_str e) stdout with
          | (None, stdout') => (Finished, stdout', w')
          | (Some e', stdout') => (Traceback e', stdout', w')
          end
      | None => (Traceback e, stdout, w')
      end
  end.

End Script.

(** A poll the loop of the script can print: a dict with the keys
    [question] and [id]. *)
Definition printable_poll (poll : Json) : Prop :=
  exists question id,
    subscript poll "question" = inr question /\
    subscript poll "id" = inr id.

(** A stdout that can write every text. *)
Definition any_text : string -> bool := fun _ => true.

(** Decides the status tests of a goal from the arithmetic facts at hand. *)
Ltac status_cases :=
  repeat match goal with
    | |- context [Z.eqb ?a ?b] => destruct (Z.eqb_spec a b); try lia
    | |- context [Z.leb ?a ?b] => destruct (Z.leb_spec a b); try lia
    | |- context [Z.ltb ?a ?b] => destruct (Z.ltb_spec a b); try lia
    end;
  try reflexivity.

(** ** Running the functions *)

Section Runs.

Context {Server : Type}.
Variable serve : Request -> Server -> Reply * Server.

Lemma send_run (rq : Request) (w : World Server) :
  send serve rq w =
  (match reply_to serve rq w with
   | Answer response => Returned response
   | Failure why => Raised (RequestException why)
   end, after serve rq w).
Proof.
  unfold send, reply_to, after.
  destruct (serve rq (server w)) as [[response | why] server']; reflexivity.
Qed.

Lemma raise_for_status_run (response : Response) (w : World Server) :
  raise_for_status response w =
  (if (400 <=? status_code response) && (status_code response <? 600)
   then Raised (HTTPError response) else Returned tt, w).
Proof.
  unfold raise_for_status, raise, ret.
  destruct (400 <=? status_code response) eqn:Hlo;
    destruct (status_code response <? 500) eqn:Hmid;
    destruct (500 <=? status_code response) eqn:Hhi;
    destruct (status_code response <? 600) eqn:Hup;
    simpl; try reflexivity; lia.
Qed.

(** [raise_for_status] followed by [json()], the tail of every function. *)
Lemma checked_json_run (response : Response) (w : World Server) :
  bind (raise_for_status response) (fun _ => response_json response) w =
  (if (400 <=? status_code response) && (status_code response <? 600)
   then Raised (HTTPError response) else decoded response, w).
Proof.
  unfold bind. rewrite raise_for_status_run.
  destruct ((400 <=? status_code response) && (status_code response <? 600));
    reflexivity.
Qed.

Lemma register_user_run (username password base_url : string)
    (w : World Server) :
  register_user serve username password base_url w =
  (match reply_to serve (register_request username password base_url) w with
   | Answer response =>
       if status_code response =? 200 then decoded response
       else if status_code response =? 400 then Raised DuplicateUsername
       else if (400 <=? status_code response) && (status_code response <? 600)
       then Raised (HTTPError response)
       else decoded response
   | Failure why => Raised (RequestException why)
   end, after serve (register_request username password base_url) w).
Proof.
  unfold register_user, json_dumps, requests_post, bind.
  cbn [json.ints_ok forallb snd andb ret].
  fold (register_request username password base_url).
  rewrite send_run.
  destruct (reply_to serve _ w) as [response | why]; [ | reflexivity].
  destruct (status_code response =? 200); [reflexivity | ].
  destruct (status_code response =? 400); [reflexivity | ].
  apply checked_json_run.
Qed.

Lemma get_polls_run (skip limit : Z) (base_url : string) (w : World Server) :
  get_polls serve skip limit base_url w =
  (match reply_to serve (polls_request skip limit base_url) w with
   | Answer response =>
       if (400 <=? status_code response) && (status_code response <? 600)
       then Raised (HTTPError response)
       else decoded response
   | Failure why => Raised (RequestException why)
   end, after serve (polls_request skip limit base_url) w).
Proof.
  unfold get_polls, requests_get, bind at 1.
  fold (polls_request skip limit base_url).
  rewrite send_run.
  destruct (reply_to serve _ w) as [response | why]; [ | reflexivity].
  apply checked_json_run.
Qed.

Lemma vote_on_poll_run (poll_id option_id : Z)
    (access_token base_url : string) (w : World Server) :
  vote_on_poll serve poll_id option_id access_token base_url w =
  if int_str_ok poll_id && int_str_ok option_id then
    (match reply_to serve
             (vote_request poll_id option_id access_token base_url) w with
     | Answer response =>
         if status_code response =? 200 then decoded response
         else if status_code response =? 401 then Raised Unauthorized
         else if status_code response =? 404 then Raised NotFound_vote
         else if (400 <=? status_code response) && (status_code response <? 600)
         then Raised (HTTPError response)
         else decoded response
     | Failure why => Raised (RequestException why)
     end, after serve (vote_request poll_id option_id access_token base_url) w)
  else (Raised IntDigitsError, w).
Proof.
  unfold vote_on_poll, int_str, json_dumps, requests_post.
  cbn [json.ints_ok forallb snd].
  destruct (int_str_ok poll_id); [ | reflexivity].
  destruct (int_str_ok option_id); [ | reflexivity].
  unfold bind, ret. cbn [andb].
  fold (vote_request poll_id option_id access_token base_url).
  rewrite send_run.
  destruct (reply_to serve _ w) as [response | why]; [ | reflexivity].
  destruct (status_code response =? 200); [reflexivity | ].
  destruct (status_code response =? 401); [reflexivity | ].
  destruct (status_code response =? 404); [reflexivity | ].
  apply checked_json_run.
Qed.

Lemma get_poll_results_run (poll_id : Z) (base_url : string)
    (w : World Server) :
  get_poll_results serve poll_id base_url w =
  if int_str_ok poll_id then
    (match reply_to serve (results_request poll_id base_url) w with
     | Answer response =>
         if status_code response =? 200 then decoded response
         else if status_code response =? 404 then Raised NotFound_results
         else if (400 <=? status_code response) && (status_code response <? 600)
         then Raised (HTTPError response)
         else decoded response
     | Failure why => Raised (RequestException why)
     end, after serve (results_request poll_id base_url) w)
  else (Raised IntDigitsError, w).
Proof.
  unfold get_poll_results, int_str, requests_get.
  destruct (int_str_ok poll_id); [ | reflexivity].
  unfold bind, ret.
  fold (results_request poll_id base_url).
  rewrite send_run.
  destruct (reply_to serve _ w) as [response | why]; [ | reflexivity].
  destruct (status_code response =? 200); [reflexivity | ].
  destruct (status_code response =? 404); [reflexivity | ].
  apply checked_json_run.
Qed.

Lemma vote_on_poll_run_ok (poll_id option_id : Z)
    (access_token base_url : string) (w : World Server) :
  int_str_ok poll_id = true -> int_str_ok option_id = true ->
  vote_on_poll serve poll_id option_id access_token base_url w =
  (match reply_to serve
           (vote_request poll_id option_id access_token base_url) w with
   | Answer response =>
       if status_code response =? 200 then decoded response
       else if status_code response =? 401 then Raised Unauthorized
       else if status_code response =? 404 then Raised NotFound_vote
       else if (400 <=? status_code response) && (status_code response <? 600)
       then Raised (HTTPError response)
       else decoded response
   | Failure why => Raised (RequestException why)
   end, after serve (vote_request poll_id option_id access_token base_url) w).
Proof.
  intros Hpoll Hoption. rewrite vote_on_poll_run, Hpoll, Hoption. reflexivity.
Qed.

Lemma get_poll_results_run_ok (poll_id : Z) (base_url : string)
    (w : World Server) :
  int_str_ok poll_id = true ->
  get_poll_results serve poll_id base_url w =
  (match reply_to serve (results_request poll_id base_url) w with
   | Answer response =>
       if status_code response =? 200 then decoded response
       else if status_code response =? 404 then Raised NotFound_results
       else if (400 <=? status_code response) && (status_code response <? 600)
       then Raised (HTTPError response)
       else decoded response
   | Failure why => Raised (RequestException why)
   end, after serve (results_request poll_id base_url) w).
Proof.
  intros Hpoll. rewrite get_poll_results_run, Hpoll. reflexivity.
Qed.

End Runs.

(** Every integer of at most 18 digits is within the digit limit. *)
Lemma int_str_ok_small (n : Z) :
  Z.abs n < 10 ^ 18 -> int_str_ok n = true.
Proof.
  intros H. unfold int_str_ok. apply Z.ltb_lt.
  eapply Z.lt_trans; [exact H | ]. vm_compute. reflexivity.
Qed.

(** The least integer beyond the digit limit: 1 followed by 4300 zeros. *)
Lemma int_str_ok_limit : int_str_ok (10 ^ 4300) = false.
Proof. vm_compute. reflexivity. Qed.

(** ** Status mapping *)

(** C1, as amended: for every response to [register_user], status 200
    returns the decoded JSON body, status 400 raises the duplicate-username
    error, and every other status from 400 to 599 raises the request-failed
    error ([HTTPError]) that carries the response and so its status code. *)
Theorem register_user_status_mapping {Server : Type}
    (serve : Request -> Server -> Reply * Server) (w : World Server)
    (username password base_url : string) (response : Response) :
  reply_to serve (register_request username password base_url) w
    = Answer response ->
  let outcome := fst (register_user serve username password base_url w) in
  (status_code response = 200 -> outcome = decoded response) /\
  (status_code response = 400 -> outcome = Raised DuplicateUsername) /\
  (status_code response <> 400 -> 400 <= status_code response < 600 ->
     outcome = Raised (RequestFailed response) /\
     RequestFailed_code (RequestFailed response)
       = Some (status_code response)).
Proof.
  intros Hreply outcome. subst outcome.
  rewrite register_user_run, Hreply. cbn [fst].
  repeat split.
  - intros ->. reflexivity.
  - intros ->. reflexivity.
  - cbn. status_cases.
Qed.

Lemma register_user_status_mapping_witness :
  fst (register_user (always (mkResponse 200 (Some alice_record)))
         "alice" "pw123" default_base_url fresh)
    = Returned alice_record
  /\ fst (register_user
            (always (mkResponse 400
                       (Some (detail "Username already registered"))))
            "alice" "pw123" default_base_url fresh)
    = Raised DuplicateUsername
  /\ fst (register_user (always (mkResponse 503 None))
            "alice" "pw123" default_base_url fresh)
    = Raised (RequestFailed (mkResponse 503 None)).
Proof.
  split; [ | split].
  - apply (proj1 (register_user_status_mapping
                    (always (mkResponse 200 (Some alice_record))) fresh
                    "alice" "pw123" default_base_url _ eq_refl)).
    reflexivity.
  - apply (proj1 (proj2 (register_user_status_mapping
                    (always (mkResponse 400
                       (Some (detail "Username already registered")))) fresh
                    "alice" "pw123" default_base_url _ eq_refl))).
    reflexivity.
  - apply (proj2 (proj2 (register_user_status_mapping
                    (always (mkResponse 503 None)) fresh
                    "alice" "pw123" default_base_url _ eq_refl))).
    + cbn. lia.
    + cbn. lia.
Defined.

(** C1 as stated fails: status 300 is neither 200, nor 400, nor a 2xx
    status, and [register_user] returns the decoded body instead of raising
    the request-failed error. *)
Lemma register_user_status_300_returns :
  ~ (200 <= 300 < 300) /\ 300 <> 400 /\
  fst (register_user (always (mkResponse 300 (Some alice_record)))
         "alice" "pw123" default_base_url fresh)
    = Returned alice_record /\
  fst (register_user (always (mkResponse 300 (Some alice_record)))
         "alice" "pw123" default_base_url fresh)
    <> Raised (RequestFailed (mkResponse 300 (Some alice_record))).
Proof.
  split; [lia | ]. split; [lia | ]. split; [vm_compute; reflexivity | ].
  vm_compute. discriminate.
Qed.

(** C2, as amended: for every response to [vote_on_poll] (the ids being
    within the digit limit of [int], so that the call is made), status 200 returns
    the decoded JSON body, status 401 raises the unauthorized error, status
    404 raises the not-found error, and every other status from 400 to 599
    raises the request-failed error ([HTTPError]). *)
Theorem vote_on_poll_status_mapping {Server : Type}
    (serve : Request -> Server -> Reply * Server) (w : World Server)
    (poll_id option_id : Z) (access_token base_url : string)
    (response : Response) :
  int_str_ok poll_id = true -> int_str_ok option_id = true ->
  reply_to serve (vote_request poll_id option_id access_token base_url) w
    = Answer response ->
  let outcome :=
    fst (vote_on_poll serve poll_id option_id access_token base_url w) in
  (status_code response = 200 -> outcome = decoded response) /\
  (status_code response = 401 -> outcome = Raised Unauthorized) /\
  (status_code response = 404 -> outcome = Raised NotFound_vote) /\
  (status_code response <> 401 -> status_code response <> 404 ->
   400 <= status_code response < 600 ->
     outcome = Raised (RequestFailed response)).
Proof.
  intros Hpoll Hoption Hreply outcome. subst outcome.
  rewrite vote_on_poll_run_ok, Hreply by assumption. cbn [fst].
  repeat split.
  - intros ->. reflexivity.
  - intros ->. reflexivity.
  - intros ->. reflexivity.
  - intros H401 H404 Hrange. status_cases.
Qed.

Lemma vote_on_poll_status_mapping_witness :
  fst (vote_on_poll (always (mkResponse 200 (Some vote_record)))
         1 2 "token" default_base_url fresh)
    = Returned vote_record
  /\ fst (vote_on_poll (always (mkResponse 401 None))
            1 2 "expired" default_base_url fresh)
    = Raised Unauthorized
  /\ fst (vote_on_poll (always (mkResponse 404 None))
            999 1 "token" default_base_url fresh)
    = Raised NotFound_vote
  /\ fst (vote_on_poll (always (mkResponse 422 None))
            1 2 "token" default_base_url fresh)
    = Raised (RequestFailed (mkResponse 422 None)).
Proof.
  split; [ | split; [ | split]].
  - apply (proj1 (vote_on_poll_status_mapping
                    (always (mkResponse 200 (Some vote_record))) fresh
                    1 2 "token" default_base_url _
                    (int_str_ok_small 1 eq_refl) (int_str_ok_small 2 eq_refl) eq_refl)).
    reflexivity.
  - apply (proj1 (proj2 (vote_on_poll_status_mapping
                    (always (mkResponse 401 None)) fresh
                    1 2 "expired" default_base_url _
                    (int_str_ok_small 1 eq_refl) (int_str_ok_small 2 eq_refl) eq_refl))).
    reflexivity.
  - apply (proj1 (proj2 (proj2 (vote_on_poll_status_mapping
                    (always (mkResponse 404 None)) fresh
                    999 1 "token" default_base_url _
                    (int_str_ok_small 999 eq_refl) (int_str_ok_small 1 eq_refl) eq_refl)))).
    reflexivity.
  - apply (proj2 (proj2 (proj2 (vote_on_poll_status_mapping
                    (always (mkResponse 422 None)) fresh
                    1 2 "token" default_base_url _
                    (int_str_ok_small 1 eq_refl) (int_str_ok_small 2 eq_refl) eq_refl)))).
    + cbn. lia.
    + cbn. lia.
    + cbn. lia.
Defined.

(** C2 as stated fails: status 302 is not a 2xx status and is none of 200,
    401 and 404, and [vote_on_poll] returns the decoded body instead of
    raising the request-failed error. *)
Lemma vote_on_poll_status_302_returns :
  ~ (200 <= 302 < 300) /\ 302 <> 401 /\ 302 <> 404 /\
  fst (vote_on_poll (always (mkResponse 302 (Some vote_record)))
         1 2 "token" default_base_url fresh)
    = Returned vote_record /\
  fst (vote_on_poll (always (mkResponse 302 (Some vote_record)))
         1 2 "token" default_base_url fresh)
    <> Raised (RequestFailed (mkResponse 302 (Some vote_record))).
Proof.
  split; [lia | ]. split; [lia | ]. split; [lia | ].
  split; [vm_compute; reflexivity | ]. vm_compute. discriminate.
Qed.

(** C3, as amended: for every response to [get_poll_results] (the poll id
    being within the digit limit of [int], so that the call is made), status 200
    returns the decoded JSON body, status 404 raises the not-found error,
    and every other status from 400 to 599 raises the request-failed error
    ([HTTPError]). *)
Theorem get_poll_results_status_mapping {Server : Type}
    (serve : Request -> Server -> Reply * Server) (w : World Server)
    (poll_id : Z) (base_url : string) (response : Response) :
  int_str_ok poll_id = true ->
  reply_to serve (results_request poll_id base_url) w = Answer response ->
  let outcome := fst (get_poll_results serve poll_id base_url w) in
  (status_code response = 200 -> outcome = decoded response) /\
  (status_code response = 404 -> outcome = Raised NotFound_results) /\
  (status_code response <> 404 -> 400 <= status_code response < 600 ->
     outcome = Raised (RequestFailed response)).
Proof.
  intros Hpoll Hreply outcome. subst outcome.
  rewrite get_poll_results_run_ok, Hreply by assumption. cbn [fst].
  repeat split.
  - intros ->. reflexivity.
  - intros ->. reflexivity.
  - intros H404 Hrange. status_cases.
Qed.

Lemma get_poll_results_status_mapping_witness :
  fst (get_poll_results (always (mkResponse 200 (Some poll_results)))
         1 default_base_url fresh)
    = Returned poll_results
  /\ fst (get_poll_results (always (mkResponse 404 None))
            999 default_base_url fresh)
    = Raised NotFound_results
  /\ fst (get_poll_results (always (mkResponse 500 None))
            1 default_base_url fresh)
    = Raised (RequestFailed (mkResponse 500 None)).
Proof.
  split; [ | split].
  - apply (proj1 (get_poll_results_status_mapping
                    (always (mkResponse 200 (Some poll_results))) fresh
                    1 default_base_url _ (int_str_ok_small 1 eq_refl) eq_refl)).
    reflexivity.
  - apply (proj1 (proj2 (get_poll_results_status_mapping
                    (always (mkResponse 404 None)) fresh
                    999 default_base_url _ (int_str_ok_small 999 eq_refl) eq_refl))).
    reflexivity.
  - apply (proj2 (proj2 (get_poll_results_status_mapping
                    (always (mkResponse 500 None)) fresh
                    1 default_base_url _ (int_str_ok_small 1 eq_refl) eq_refl))).
    + cbn. lia.
    + cbn. lia.
Defined.

(** C3 as stated fails: status 300 is not a 2xx status and is neither 200
    nor 404, and [get_poll_results] returns the decoded body instead of
    raising the request-failed error. *)
Lemma get_poll_results_status_300_returns :
  ~ (200 <= 300 < 300) /\ 300 <> 404 /\
  fst (get_poll_results (always (mkResponse 300 (Some poll_results)))
         1 default_base_url fresh)
    = Returned poll_results /\
  fst (get_poll_results (always (mkResponse 300 (Some poll_results)))
         1 default_base_url fresh)
    <> Raised (RequestFailed (mkResponse 300 (Some poll_results))).
Proof.
  split; [lia | ]. split; [lia | ]. split; [vm_compute; reflexivity | ].
  vm_compute. discriminate.
Qed.

(** ** Paging *)

(** C4, as amended: for every skip and limit and every status-200 response
    whose decoded body is an array of at most [limit] items, [get_polls]
    returns that array unchanged, so a sequence of length at most [limit]. *)
Theorem get_polls_returns_service_array {Server : Type}
    (serve : Request -> Server -> Reply * Server) (w : World Server)
    (skip limit : Z) (base_url : string) (response : Response)
    (items : list Json) :
  reply_to serve (polls_request skip limit base_url) w = Answer response ->
  status_code response = 200 ->
  json_body response = Some (JArray items) ->
  Z.of_nat (List.length items) <= limit ->
  exists value : Json,
    fst (get_polls serve skip limit base_url w) = Returned value /\
    value = JArray items /\
    length_at_most limit value.
Proof.
  intros Hreply Hstatus Hbody Hlen.
  exists (JArray items).
  rewrite get_polls_run, Hreply. cbn [fst].
  rewrite Hstatus. cbn.
  unfold decoded. rewrite Hbody.
  repeat split. exact Hlen.
Qed.

Lemma get_polls_returns_service_array_witness :
  exists value : Json,
    fst (get_polls (always (mkResponse 200 (Some (JArray two_polls))))
           0 5 default_base_url fresh)
      = Returned value /\
    value = JArray two_polls /\
    length_at_most 5 value.
Proof.
  apply (get_polls_returns_service_array
           (always (mkResponse 200 (Some (JArray two_polls)))) fresh
           0 5 default_base_url (mkResponse 200 (Some (JArray two_polls)))
           two_polls eq_refl eq_refl eq_refl).
  cbn. lia.
Defined.

(** C4 as stated fails: with [limit = 1] and a status-200 response that
    holds two polls, [get_polls] returns both. *)
Lemma get_polls_returns_more_than_limit :
  fst (get_polls (always (mkResponse 200 (Some (JArray two_polls))))
         0 1 default_base_url fresh)
    = Returned (JArray two_polls) /\
  py_len (JArray two_polls) = Some 2 /\
  ~ length_at_most 1 (JArray two_polls).
Proof.
  split; [reflexivity | ]. split; [reflexivity | ].
  cbn. lia.
Qed.

(** ** The requests sent *)

(** C5: for every username, password and base address, [register_user]
    makes exactly one call of [requests], a POST to the base address joined
    with [/register], whose body is the JSON text of the object with the
    given [username] and [password] and whose header [Content-Type] is
    [application/json]. *)
Theorem register_user_sends_one_post {Server : Type}
    (serve : Request -> Server -> Reply * Server) (w : World Server)
    (username password base_url : string) :
  let request :=
    {| method := POST;
       url := base_url ++ "/register";
       headers := [("Content-Type", "application/json")];
       params := [];
       data := Some (json.dumps (JObject [("username", JString username);
                                          ("password", JString password)]))
    |} in
  sent (snd (register_user serve username password base_url w))
    = (sent w ++ [request])%list.
Proof.
  rewrite register_user_run. reflexivity.
Qed.

(** C6, as amended: for every poll id and option id within the digit limit
    of [int] (at most 4300 decimal digits), every access token and base
    address, [vote_on_poll] makes exactly one call of [requests], a POST to
    the base address joined with [/polls/{poll_id}/vote], with the header
    [Authorization] equal to [Bearer ] followed by the token and with the
    JSON text of the object [{option_id: option_id}] as body. *)
Theorem vote_on_poll_sends_one_post {Server : Type}
    (serve : Request -> Server -> Reply * Server) (w : World Server)
    (poll_id option_id : Z) (access_token base_url : string) :
  int_str_ok poll_id = true -> int_str_ok option_id = true ->
  let request :=
    {| method := POST;
       url := base_url ++ "/polls/" ++ py_str_int poll_id ++ "/vote";
       headers := [("Content-Type", "application/json");
                   ("Authorization", "Bearer " ++ access_token)];
       params := [];
       data := Some (json.dumps (JObject [("option_id", JInt option_id)]))
    |} in
  sent (snd (vote_on_poll serve poll_id option_id access_token base_url w))
    = (sent w ++ [request])%list.
Proof.
  intros Hpoll Hoption. rewrite vote_on_poll_run_ok by assumption.
  reflexivity.
Qed.

Lemma vote_on_poll_sends_one_post_witness :
  sent (snd (vote_on_poll unreachable 1 2 "token" default_base_url fresh))
  = [vote_request 1 2 "token" default_base_url].
Proof.
  apply (vote_on_poll_sends_one_post unreachable fresh 1 2
           "token" default_base_url
           (int_str_ok_small 1 eq_refl) (int_str_ok_small 2 eq_refl)).
Defined.

(** C6 as stated fails: for the poll id [10 ^ 4300], of 4301 digits, the
    f-string of the URL raises the [ValueError] of the digit limit and
    [vote_on_poll] calls [requests] not at all. *)
Lemma vote_on_poll_huge_poll_id_sends_nothing :
  vote_on_poll (always (mkResponse 200 (Some vote_record)))
    (10 ^ 4300) 1 "token" default_base_url fresh
  = (Raised IntDigitsError, fresh) /\
  sent (snd (vote_on_poll (always (mkResponse 200 (Some vote_record)))
               (10 ^ 4300) 1 "token" default_base_url fresh)) = [].
Proof.
  rewrite vote_on_poll_run.
  rewrite int_str_ok_limit.
  split; reflexivity.
Qed.

(** C7: for every integer skip and limit, whatever their sign, [get_polls]
    makes one GET call to the base address joined with [/polls] whose query
    parameters [skip] and [limit] are the given arguments, unchanged. *)
Theorem get_polls_forwards_skip_and_limit {Server : Type}
    (serve : Request -> Server -> Reply * Server) (w : World Server)
    (skip limit : Z) (base_url : string) :
  let request :=
    {| method := GET;
       url := base_url ++ "/polls";
       headers := [];
       params := [("skip", skip); ("limit", limit)];
       data := None |} in
  sent (snd (get_polls serve skip limit base_url w))
    = (sent w ++ [request])%list.
Proof.
  rewrite get_polls_run. reflexivity.
Qed.

(** The text that goes out for the user alice, and for a name with a quote,
    a line feed and a character outside ASCII. *)
Example register_user_alice_body :
  data (register_request "alice" "pw123" default_base_url)
  = Some ("{" ++ json.dquote ++ "username" ++ json.dquote ++ ": "
          ++ json.dquote ++ "alice" ++ json.dquote ++ ", "
          ++ json.dquote ++ "password" ++ json.dquote ++ ": "
          ++ json.dquote ++ "pw123" ++ json.dquote ++ "}").
Proof. reflexivity. Qed.

Example encode_string_escapes :
  json.encode_string
    ("a" ++ json.dquote ++ String "010"%char (String "233"%char "b"))
  = json.dquote ++ "a" ++ json.backslash ++ json.dquote
      ++ json.backslash ++ "n" ++ json.backslash ++ "u00e9" ++ "b"
      ++ json.dquote.
Proof. reflexivity. Qed.

Example get_polls_negative_skip_zero_limit :
  sent (snd (get_polls unreachable (-3) 0 default_base_url fresh))
  = [{| method := GET;
        url := "http://localhost:8000/polls";
        headers := [];
        params := [("skip", -3); ("limit", 0)];
        data := None |}].
Proof. reflexivity. Qed.

(** ** Statuses that raise nothing *)

(** C8, as amended: for [register_user], [vote_on_poll] and
    [get_poll_results], a response whose status is not 200 and not from 400
    to 599 (the range that holds the mapped codes 400, 401 and 404) raises
    no error for its status: the outcome is that of [response.json()], the
    decoded body when the body is JSON, and otherwise the exception of the
    decoder. *)
Theorem other_statuses_return_decoded_body {Server : Type}
    (serve : Request -> Server -> Reply * Server) (w : World Server)
    (response : Response) :
  status_code response <> 200 ->
  ~ (400 <= status_code response < 600) ->
  (forall username password base_url,
     reply_to serve (register_request username password base_url) w
       = Answer response ->
     fst (register_user serve username password base_url w)
       = decoded response) /\
  (forall poll_id option_id access_token base_url,
     int_str_ok poll_id = true -> int_str_ok option_id = true ->
     reply_to serve (vote_request poll_id option_id access_token base_url) w
       = Answer response ->
     fst (vote_on_poll serve poll_id option_id access_token base_url w)
       = decoded response) /\
  (forall poll_id base_url,
     int_str_ok poll_id = true ->
     reply_to serve (results_request poll_id base_url) w = Answer response ->
     fst (get_poll_results serve poll_id base_url w) = decoded response) /\
  (forall body, json_body response = Some body ->
     decoded response = Returned body) /\
  (forall e, decoded response = Raised e ->
     json_body response = None /\
     e = decode_exception (json_failure response) /\
     (forall message, e <> ValueError message) /\
     (forall carried, e <> HTTPError carried)).
Proof.
  intros H200 Hrange.
  assert (Hcheck : (400 <=? status_code response)
                   && (status_code response <? 600) = false).
  { destruct (Z.leb_spec 400 (status_code response));
      destruct (Z.ltb_spec (status_code response) 600);
      try reflexivity; lia. }
  assert (Hneq : forall code, 400 <= code < 600 ->
                   (status_code response =? code) = false).
  { intros code Hcode. apply Z.eqb_neq. lia. }
  apply Z.eqb_neq in H200.
  split; [ | split; [ | split; [ | split]]].
  - intros username password base_url Hreply.
    rewrite register_user_run, Hreply. cbn [fst].
    rewrite H200, (Hneq 400), Hcheck by lia. reflexivity.
  - intros poll_id option_id access_token base_url Hpoll Hoption Hreply.
    rewrite vote_on_poll_run_ok, Hreply by assumption. cbn [fst].
    rewrite H200, (Hneq 401), (Hneq 404), Hcheck by lia. reflexivity.
  - intros poll_id base_url Hpoll Hreply.
    rewrite get_poll_results_run_ok, Hreply by assumption. cbn [fst].
    rewrite H200, (Hneq 404), Hcheck by lia. reflexivity.
  - intros body Hbody. unfold decoded. rewrite Hbody. reflexivity.
  - intros e. unfold decoded.
    destruct (json_body response); [discriminate | ].
    intros [= <-]. split; [reflexivity | ]. split; [reflexivity | ].
    destruct (json_failure response); split; discriminate.
Qed.

Lemma other_statuses_return_decoded_body_witness :
  fst (register_user (always (mkResponse 201 (Some alice_record)))
         "alice" "pw123" default_base_url fresh)
    = Returned alice_record
  /\ fst (vote_on_poll (always (mkResponse 302 (Some vote_record)))
            1 2 "token" default_base_url fresh)
    = Returned vote_record
  /\ fst (get_poll_results (always (mkResponse 101 (Some poll_results)))
            1 default_base_url fresh)
    = Returned poll_results.
Proof.
  split; [ | split].
  - apply (proj1 (other_statuses_return_decoded_body
                    (always (mkResponse 201 (Some alice_record))) fresh
                    (mkResponse 201 (Some alice_record))
                    ltac:(cbn; lia) ltac:(cbn; lia))).
    reflexivity.
  - apply (proj1 (proj2 (other_statuses_return_decoded_body
                    (always (mkResponse 302 (Some vote_record))) fresh
                    (mkResponse 302 (Some vote_record))
                    ltac:(cbn; lia) ltac:(cbn; lia)))).
    + exact (int_str_ok_small 1 eq_refl).
    + exact (int_str_ok_small 2 eq_refl).
    + reflexivity.
  - apply (proj1 (proj2 (proj2 (other_statuses_return_decoded_body
                    (always (mkResponse 101 (Some poll_results))) fresh
                    (mkResponse 101 (Some poll_results))
                    ltac:(cbn; lia) ltac:(cbn; lia))))).
    + exact (int_str_ok_small 1 eq_refl).
    + reflexivity.
Defined.

(** C8 as stated fails: status 204 is a 2xx status other than 200, and for
    its empty body, which is not JSON, [register_user] raises the decoder's
    error instead of returning a decoded body. *)
Lemma register_user_204_empty_body_raises :
  204 <> 200 /\ 204 <> 400 /\ ~ (400 <= 204 < 600) /\
  fst (register_user (always (mkResponse 204 None))
         "alice" "pw123" default_base_url fresh)
    = Raised JSONDecodeError /\
  (forall body,
     fst (register_user (always (mkResponse 204 None))
            "alice" "pw123" default_base_url fresh)
       <> Returned body).
Proof.
  split; [lia | ]. split; [lia | ]. split; [lia | ].
  rewrite register_user_run. split; [reflexivity | ].
  intros body. cbn. discriminate.
Qed.

(** ** No validation before the call *)

(** C9, as amended: [register_user], [vote_on_poll] and [get_poll_results]
    check none of the stated constraints: for every username, password and
    access token, the empty ones included, and every poll id and option id
    within the digit limit of [int], the non-positive ones included, the
    run ends in the world where the request built from those values has
    been handed to [requests], so no error comes before the call. *)
Theorem no_local_validation {Server : Type}
    (serve : Request -> Server -> Reply * Server) (w : World Server) :
  (forall username password base_url,
     snd (register_user serve username password base_url w)
       = after serve (register_request username password base_url) w) /\
  (forall poll_id option_id access_token base_url,
     int_str_ok poll_id = true -> int_str_ok option_id = true ->
     snd (vote_on_poll serve poll_id option_id access_token base_url w)
       = after serve
           (vote_request poll_id option_id access_token base_url) w) /\
  (forall poll_id base_url,
     int_str_ok poll_id = true ->
     snd (get_poll_results serve poll_id base_url w)
       = after serve (results_request poll_id base_url) w).
Proof.
  split; [ | split]; intros.
  - rewrite register_user_run. reflexivity.
  - rewrite vote_on_poll_run_ok by assumption. reflexivity.
  - rewrite get_poll_results_run_ok by assumption. reflexivity.
Qed.

Lemma no_local_validation_witness :
  snd (register_user unreachable "" "" default_base_url fresh)
    = mkWorld [register_request "" "" default_base_url] tt
  /\ snd (vote_on_poll unreachable (-1) 0 "" default_base_url fresh)
    = mkWorld [vote_request (-1) 0 "" default_base_url] tt
  /\ snd (get_poll_results unreachable 0 default_base_url fresh)
    = mkWorld [results_request 0 default_base_url] tt.
Proof.
  split; [ | split].
  - apply (proj1 (no_local_validation unreachable fresh)).
  - apply (proj1 (proj2 (no_local_validation unreachable fresh))
             (-1) 0 "" default_base_url
             (int_str_ok_small (-1) eq_refl) (int_str_ok_small 0 eq_refl)).
  - apply (proj2 (proj2 (no_local_validation unreachable fresh))
             0 default_base_url (int_str_ok_small 0 eq_refl)).
Defined.

(** C9 as stated fails: for the poll id [10 ^ 4300] the f-string of the URL
    raises the [ValueError] of the digit limit, and [get_poll_results] and
    [vote_on_poll] end with that error before any request is sent. *)
Lemma huge_poll_id_raises_before_the_request :
  get_poll_results (always (mkResponse 200 (Some poll_results)))
    (10 ^ 4300) default_base_url fresh
  = (Raised IntDigitsError, fresh) /\
  vote_on_poll (always (mkResponse 200 (Some vote_record)))
    1 (10 ^ 4300) "token" default_base_url fresh
  = (Raised IntDigitsError, fresh).
Proof.
  rewrite get_poll_results_run, vote_on_poll_run.
  rewrite int_str_ok_limit.
  rewrite andb_false_r. split; reflexivity.
Qed.

(** Inputs outside the stated constraints, run on a service that accepts
    them: the requests go out as built. *)
Example register_user_empty_credentials :
  register_user (always (mkResponse 200 (Some alice_record)))
    "" "" default_base_url fresh
  = (Returned alice_record,
     mkWorld
       [{| method := POST;
           url := "http://localhost:8000/register";
           headers := [("Content-Type", "application/json")];
           params := [];
           data := Some ("{" ++ json.dquote ++ "username" ++ json.dquote
                         ++ ": " ++ json.dquote ++ json.dquote ++ ", "
                         ++ json.dquote ++ "password" ++ json.dquote
                         ++ ": " ++ json.dquote ++ json.dquote ++ "}") |}]
       tt).
Proof. reflexivity. Qed.

Example vote_on_poll_non_positive_ids :
  vote_on_poll (always (mkResponse 200 (Some vote_record)))
    (-1) 0 "" default_base_url fresh
  = (Returned vote_record,
     mkWorld
       [{| method := POST;
           url := "http://localhost:8000/polls/-1/vote";
           headers := [("Content-Type", "application/json");
                       ("Authorization", "Bearer ")];
           params := [];
           data := Some ("{" ++ json.dquote ++ "option_id" ++ json.dquote
                         ++ ": 0}") |}]
       tt).
Proof. vm_compute. reflexivity. Qed.

Example get_poll_results_zero_id :
  get_poll_results (always (mkResponse 404 None)) 0 default_base_url fresh
  = (Raised NotFound_results,
     mkWorld
       [{| method := GET;
           url := "http://localhost:8000/polls/0/results";
           headers := [];
           params := [];
           data := None |}]
       tt).
Proof. vm_compute. reflexivity. Qed.

(** ** A session *)

(** The scenario of the specification on a scripted service: alice
    registers, registers again, lists the polls of an empty service and
    votes on a poll that does not exist.  Four calls, one request each. *)
Example session :
  let w0 := mkWorld []
              [Answer (mkResponse 200 (Some alice_record));
               Answer (mkResponse 400
                         (Some (detail "Username already registered")));
               Answer (mkResponse 200 (Some (JArray [])));
               Answer (mkResponse 404 (Some (detail "Poll not found")))] in
  let (first, w1) :=
    register_user scripted "alice" "pw123" default_base_url w0 in
  let (second, w2) :=
    register_user scripted "alice" "pw123" default_base_url w1 in
  let (polls, w3) := get_polls scripted 0 5 default_base_url w2 in
  let (vote, w4) :=
    vote_on_poll scripted 999 1 "token" default_base_url w3 in
  (first, second, polls, vote)
    = (Returned alice_record, Raised DuplicateUsername,
       Returned (JArray []), Raised NotFound_vote)
  /\ sent w4
      = [register_request "alice" "pw123" default_base_url;
         register_request "alice" "pw123" default_base_url;
         polls_request 0 5 default_base_url;
         vote_request 999 1 "token" default_base_url]
  /\ server w4 = [].
Proof. vm_compute. repeat split. Qed.

(** ** What an outcome tells about the response *)

Lemma decoded_Returned (response : Response) (value : Json) :
  decoded response = Returned value <-> json_body response = Some value.
Proof.
  unfold decoded. destruct (json_body response); split; congruence.
Qed.

Lemma decoded_not_ValueError (response : Response) (message : string) :
  decoded response <> Raised (ValueError message).
Proof.
  unfold decoded. destruct (json_body response); [discriminate | ].
  destruct (json_failure response); discriminate.
Qed.

Lemma decoded_not_HTTPError (response other : Response) :
  decoded response <> Raised (HTTPError other).
Proof.
  unfold decoded. destruct (json_body response); [discriminate | ].
  destruct (json_failure response); discriminate.
Qed.

(** [get_polls] has no status of its own: every response with a status from
    400 to 599 raises [HTTPError] with that response, 400, 401 and 404
    included, and for every other response the outcome is that of
    [response.json()]. *)
Theorem get_polls_status_mapping {Server : Type}
    (serve : Request -> Server -> Reply * Server) (w : World Server)
    (skip limit : Z) (base_url : string) (response : Response) :
  reply_to serve (polls_request skip limit base_url) w = Answer response ->
  (400 <= status_code response < 600 ->
     fst (get_polls serve skip limit base_url w)
       = Raised (HTTPError response)) /\
  (~ (400 <= status_code response < 600) ->
     fst (get_polls serve skip limit base_url w) = decoded response).
Proof.
  intros Hreply. rewrite get_polls_run, Hreply. cbn [fst].
  split; intros Hrange; status_cases.
Qed.

Lemma get_polls_status_mapping_witness :
  fst (get_polls (always (mkResponse 404 (Some (detail "Not Found"))))
         0 10 default_base_url fresh)
    = Raised (HTTPError (mkResponse 404 (Some (detail "Not Found"))))
  /\ fst (get_polls (always (mkResponse 204 None)) 0 10 default_base_url fresh)
    = Raised JSONDecodeError.
Proof.
  split.
  - apply (proj1 (get_polls_status_mapping
                    (always (mkResponse 404 (Some (detail "Not Found"))))
                    fresh 0 10 default_base_url _ eq_refl)).
    cbn. lia.
  - apply (proj2 (get_polls_status_mapping
                    (always (mkResponse 204 None))
                    fresh 0 10 default_base_url _ eq_refl)).
    cbn. lia.
Defined.

(** A failure of the transport is not handled by any of the four functions:
    the exception of [requests] reaches the caller as it is, and the one
    call that failed is the only one made (nothing is tried again). *)
Theorem transport_failure_propagates {Server : Type}
    (serve : Request -> Server -> Reply * Server) (w : World Server)
    (why : TransportFailure) :
  (forall username password base_url,
     reply_to serve (register_request username password base_url) w
       = Failure why ->
     register_user serve username password base_url w
       = (Raised (RequestException why),
          after serve (register_request username password base_url) w)) /\
  (forall skip limit base_url,
     reply_to serve (polls_request skip limit base_url) w = Failure why ->
     get_polls serve skip limit base_url w
       = (Raised (RequestException why),
          after serve (polls_request skip limit base_url) w)) /\
  (forall poll_id option_id access_token base_url,
     int_str_ok poll_id = true -> int_str_ok option_id = true ->
     reply_to serve (vote_request poll_id option_id access_token base_url) w
       = Failure why ->
     vote_on_poll serve poll_id option_id access_token base_url w
       = (Raised (RequestException why),
          after serve
            (vote_request poll_id option_id access_token base_url) w)) /\
  (forall poll_id base_url,
     int_str_ok poll_id = true ->
     reply_to serve (results_request poll_id base_url) w = Failure why ->
     get_poll_results serve poll_id base_url w
       = (Raised (RequestException why),
          after serve (results_request poll_id base_url) w)).
Proof.
  repeat split; intros.
  - rewrite register_user_run, H. reflexivity.
  - rewrite get_polls_run, H. reflexivity.
  - rewrite vote_on_poll_run_ok, H1 by assumption. reflexivity.
  - rewrite get_poll_results_run_ok, H0 by assumption. reflexivity.
Qed.

Lemma transport_failure_propagates_witness :
  register_user unreachable "alice" "pw123" default_base_url fresh
    = (Raised (RequestException ConnectionError),
       mkWorld [register_request "alice" "pw123" default_base_url] tt)
  /\ get_polls scripted 0 10 default_base_url
       (mkWorld [] [Failure ReadTimeout; Answer (mkResponse 200 None)])
     = (Raised (RequestException ReadTimeout),
        mkWorld [polls_request 0 10 default_base_url]
          [Answer (mkResponse 200 None)]).
Proof.
  split.
  - apply (proj1 (transport_failure_propagates unreachable fresh
                    ConnectionError)).
    reflexivity.
  - apply (proj1 (proj2 (transport_failure_propagates scripted
                    (mkWorld [] [Failure ReadTimeout;
                                 Answer (mkResponse 200 None)])
                    ReadTimeout))).
    reflexivity.
Defined.

(** [register_user] raises its [ValueError("Username already registered")]
    exactly when the service answers with status 400. *)
Theorem register_user_DuplicateUsername_iff {Server : Type}
    (serve : Request -> Server -> Reply * Server) (w : World Server)
    (username password base_url : string) :
  fst (register_user serve username password base_url w)
    = Raised (ValueError "Username already registered")
  <->
  exists response,
    reply_to serve (register_request username password base_url) w
      = Answer response /\
    status_code response = 400.
Proof.
  rewrite register_user_run. cbn [fst].
  destruct (reply_to serve _ w) as [response | why].
  - split.
    + status_cases; intros Hout;
        try discriminate Hout;
        try (exfalso; exact (decoded_not_ValueError _ _ Hout)).
      exists response. split; [reflexivity | assumption].
    + intros [other [Hother Hstatus]].
      injection Hother as <-. status_cases.
  - split.
    + discriminate.
    + intros [other [Hother _]]. discriminate Hother.
Qed.

Lemma register_user_DuplicateUsername_iff_witness :
  fst (register_user (always (mkResponse 400 None))
         "alice" "pw123" default_base_url fresh)
    = Raised (ValueError "Username already registered").
Proof.
  apply (proj2 (register_user_DuplicateUsername_iff
                  (always (mkResponse 400 None)) fresh
                  "alice" "pw123" default_base_url)).
  exists (mkResponse 400 None). split; reflexivity.
Defined.

(** When its ids are within the digit limit, so that the call is made,
    [vote_on_poll] raises its unauthorized [ValueError] exactly when the
    service answers with status 401, and its not-found [ValueError] exactly
    when the service answers with status 404. *)
Theorem vote_on_poll_errors_iff {Server : Type}
    (serve : Request -> Server -> Reply * Server) (w : World Server)
    (poll_id option_id : Z) (access_token base_url : string) :
  int_str_ok poll_id = true -> int_str_ok option_id = true ->
  (fst (vote_on_poll serve poll_id option_id access_token base_url w)
     = Raised (ValueError "Unauthorized - invalid or missing access token")
   <->
   exists response,
     reply_to serve (vote_request poll_id option_id access_token base_url) w
       = Answer response /\
     status_code response = 401) /\
  (fst (vote_on_poll serve poll_id option_id access_token base_url w)
     = Raised (ValueError "Poll or option not found")
   <->
   exists response,
     reply_to serve (vote_request poll_id option_id access_token base_url) w
       = Answer response /\
     status_code response = 404).
Proof.
  intros Hpoll Hoption.
  rewrite vote_on_poll_run_ok by assumption. cbn [fst].
  destruct (reply_to serve _ w) as [response | why].
  - split; split.
    + status_cases; intros Hout;
        try discriminate Hout;
        try (exfalso; exact (decoded_not_ValueError _ _ Hout)).
      exists response. split; [reflexivity | assumption].
    + intros [other [Hother Hstatus]].
      injection Hother as <-. status_cases.
    + status_cases; intros Hout;
        try discriminate Hout;
        try (exfalso; exact (decoded_not_ValueError _ _ Hout)).
      exists response. split; [reflexivity | assumption].
    + intros [other [Hother Hstatus]].
      injection Hother as <-. status_cases.
  - split; split; try discriminate;
      intros [other [Hother _]]; discriminate Hother.
Qed.

Lemma vote_on_poll_errors_iff_witness :
  fst (vote_on_poll (always (mkResponse 404 None))
         999 1 "token" default_base_url fresh)
    = Raised (ValueError "Poll or option not found").
Proof.
  apply (proj2 (proj2 (vote_on_poll_errors_iff
                  (always (mkResponse 404 None)) fresh
                  999 1 "token" default_base_url
                  (int_str_ok_small 999 eq_refl)
                  (int_str_ok_small 1 eq_refl)))).
  exists (mkResponse 404 None). split; reflexivity.
Defined.

(** When the poll id is within the digit limit, [get_poll_results] raises
    its [ValueError("Poll not found")] exactly when the service answers
    with status 404. *)
Theorem get_poll_results_NotFound_iff {Server : Type}
    (serve : Request -> Server -> Reply * Server) (w : World Server)
    (poll_id : Z) (base_url : string) :
  int_str_ok poll_id = true ->
  (fst (get_poll_results serve poll_id base_url w)
     = Raised (ValueError "Poll not found")
   <->
   exists response,
     reply_to serve (results_request poll_id base_url) w = Answer response /\
     status_code response = 404).
Proof.
  intros Hpoll.
  rewrite get_poll_results_run_ok by assumption. cbn [fst].
  destruct (reply_to serve _ w) as [response | why].
  - split.
    + status_cases; intros Hout;
        try discriminate Hout;
        try (exfalso; exact (decoded_not_ValueError _ _ Hout)).
      exists response. split; [reflexivity | assumption].
    + intros [other [Hother Hstatus]].
      injection Hother as <-. status_cases.
  - split.
    + discriminate.
    + intros [other [Hother _]]. discriminate Hother.
Qed.

Lemma get_poll_results_NotFound_iff_witness :
  fst (get_poll_results (always (mkResponse 404 None))
         999 default_base_url fresh)
    = Raised (ValueError "Poll not found").
Proof.
  apply (proj2 (get_poll_results_NotFound_iff
                  (always (mkResponse 404 None)) fresh
                  999 default_base_url (int_str_ok_small 999 eq_refl))).
  exists (mkResponse 404 None). split; reflexivity.
Defined.

(** An [HTTPError] raised by any of the four functions carries the response
    the service gave to this call, its status is from 400 to 599, and it is
    none of the statuses the function maps to a [ValueError]. *)
Theorem HTTPError_carries_the_response {Server : Type}
    (serve : Request -> Server -> Reply * Server) (w : World Server)
    (carried : Response) :
  (forall username password base_url,
     fst (register_user serve username password base_url w)
       = Raised (HTTPError carried) ->
     reply_to serve (register_request username password base_url) w
       = Answer carried /\
     400 < status_code carried < 600) /\
  (forall skip limit base_url,
     fst (get_polls serve skip limit base_url w)
       = Raised (HTTPError carried) ->
     reply_to serve (polls_request skip limit base_url) w = Answer carried /\
     400 <= status_code carried < 600) /\
  (forall poll_id option_id access_token base_url,
     fst (vote_on_poll serve poll_id option_id access_token base_url w)
       = Raised (HTTPError carried) ->
     reply_to serve (vote_request poll_id option_id access_token base_url) w
       = Answer carried /\
     400 <= status_code carried < 600 /\
     status_code carried <> 401 /\ status_code carried <> 404) /\
  (forall poll_id base_url,
     fst (get_poll_results serve poll_id base_url w)
       = Raised (HTTPError carried) ->
     reply_to serve (results_request poll_id base_url) w = Answer carried /\
     400 <= status_code carried < 600 /\ status_code carried <> 404).
Proof.
  split; [ | split; [ | split]].
  - intros username password base_url.
    rewrite register_user_run. cbn [fst].
    destruct (reply_to serve _ w) as [response | why]; [ | discriminate].
    status_cases; intros Hout;
      try discriminate Hout;
      try (exfalso; exact (decoded_not_HTTPError _ _ Hout)).
    injection Hout as <-. split; [reflexivity | lia].
  - intros skip limit base_url.
    rewrite get_polls_run. cbn [fst].
    destruct (reply_to serve _ w) as [response | why]; [ | discriminate].
    status_cases; intros Hout;
      try discriminate Hout;
      try (exfalso; exact (decoded_not_HTTPError _ _ Hout)).
    injection Hout as <-. split; [reflexivity | lia].
  - intros poll_id option_id access_token base_url.
    rewrite vote_on_poll_run.
    destruct (int_str_ok poll_id && int_str_ok option_id); [ | discriminate].
    cbn [fst].
    destruct (reply_to serve _ w) as [response | why]; [ | discriminate].
    status_cases; intros Hout;
      try discriminate Hout;
      try (exfalso; exact (decoded_not_HTTPError _ _ Hout)).
    injection Hout as <-. split; [reflexivity | lia].
  - intros poll_id base_url.
    rewrite get_poll_results_run.
    destruct (int_str_ok poll_id); [ | discriminate].
    cbn [fst].
    destruct (reply_to serve _ w) as [response | why]; [ | discriminate].
    status_cases; intros Hout;
      try discriminate Hout;
      try (exfalso; exact (decoded_not_HTTPError _ _ Hout)).
    injection Hout as <-. split; [reflexivity | lia].
Qed.

Lemma HTTPError_carries_the_response_witness :
  reply_to (always (mkResponse 500 None))
    (register_request "alice" "pw123" default_base_url) fresh
    = Answer (mkResponse 500 None)
  /\ 400 < status_code (mkResponse 500 None) < 600.
Proof.
  apply (proj1 (HTTPError_carries_the_response
                  (always (mkResponse 500 None)) fresh
                  (mkResponse 500 None))
           "alice" "pw123" default_base_url).
  reflexivity.
Defined.

(** A value returned by any of the four functions is the decoded JSON body
    of the response the service gave to this call, and the status of that
    response is not from 400 to 599: nothing is made up, and no client or
    server error is turned into a result. *)
Theorem returned_value_is_the_decoded_body {Server : Type}
    (serve : Request -> Server -> Reply * Server) (w : World Server)
    (value : Json) :
  (forall username password base_url,
     fst (register_user serve username password base_url w)
       = Returned value ->
     exists response,
       reply_to serve (register_request username password base_url) w
         = Answer response /\
       json_body response = Some value /\
       ~ (400 <= status_code response < 600)) /\
  (forall skip limit base_url,
     fst (get_polls serve skip limit base_url w) = Returned value ->
     exists response,
       reply_to serve (polls_request skip limit base_url) w
         = Answer response /\
       json_body response = Some value /\
       ~ (400 <= status_code response < 600)) /\
  (forall poll_id option_id access_token base_url,
     fst (vote_on_poll serve poll_id option_id access_token base_url w)
       = Returned value ->
     exists response,
       reply_to serve (vote_request poll_id option_id access_token base_url) w
         = Answer response /\
       json_body response = Some value /\
       ~ (400 <= status_code response < 600)) /\
  (forall poll_id base_url,
     fst (get_poll_results serve poll_id base_url w) = Returned value ->
     exists response,
       reply_to serve (results_request poll_id base_url) w
         = Answer response /\
       json_body response = Some value /\
       ~ (400 <= status_code response < 600)).
Proof.
  split; [ | split; [ | split]].
  - intros username password base_url.
    rewrite register_user_run. cbn [fst].
    destruct (reply_to serve _ w) as [response | why]; [ | discriminate].
    status_cases; intros Hout; try discriminate Hout;
      apply decoded_Returned in Hout;
      exists response; (split; [reflexivity | split; [assumption | lia]]).
  - intros skip limit base_url.
    rewrite get_polls_run. cbn [fst].
    destruct (reply_to serve _ w) as [response | why]; [ | discriminate].
    status_cases; intros Hout; try discriminate Hout;
      apply decoded_Returned in Hout;
      exists response; (split; [reflexivity | split; [assumption | lia]]).
  - intros poll_id option_id access_token base_url.
    rewrite vote_on_poll_run.
    destruct (int_str_ok poll_id && int_str_ok option_id); [ | discriminate].
    cbn [fst].
    destruct (reply_to serve _ w) as [response | why]; [ | discriminate].
    status_cases; intros Hout; try discriminate Hout;
      apply decoded_Returned in Hout;
      exists response; (split; [reflexivity | split; [assumption | lia]]).
  - intros poll_id base_url.
    rewrite get_poll_results_run.
    destruct (int_str_ok poll_id); [ | discriminate].
    cbn [fst].
    destruct (reply_to serve _ w) as [response | why]; [ | discriminate].
    status_cases; intros Hout; try discriminate Hout;
      apply decoded_Returned in Hout;
      exists response; (split; [reflexivity | split; [assumption | lia]]).
Qed.

Lemma returned_value_is_the_decoded_body_witness :
  exists response,
    reply_to (always (mkResponse 200 (Some poll_results)))
      (results_request 1 default_base_url) fresh
      = Answer response /\
    json_body response = Some poll_results /\
    ~ (400 <= status_code response < 600).
Proof.
  apply (proj2 (proj2 (proj2 (returned_value_is_the_decoded_body
                  (always (mkResponse 200 (Some poll_results))) fresh
                  poll_results)))
           1 default_base_url).
  reflexivity.
Defined.

(** ** The request determines the arguments *)

Lemma string_app_assoc (a b c : string) : (a ++ b) ++ c = a ++ (b ++ c).
Proof.
  induction a as [ | x a IH]; cbn; [reflexivity | now rewrite IH].
Qed.

Lemma string_app_length (a b : string) :
  String.length (a ++ b) = (String.length a + String.length b)%nat.
Proof.
  induction a as [ | x a IH]; cbn; [reflexivity | now rewrite IH].
Qed.

Lemma string_app_inv_head (a b b' : string) : a ++ b = a ++ b' -> b = b'.
Proof.
  induction a as [ | x a IH]; cbn; intros H; [exact H | ].
  injection H as H. exact (IH H).
Qed.

Lemma string_app_inv_tail (a a' b : string) : a ++ b = a' ++ b -> a = a'.
Proof.
  revert a'. induction a as [ | x a IH]; intros [ | x' a'] H.
  - reflexivity.
  - apply (f_equal String.length) in H. cbn in H.
    rewrite string_app_length in H. lia.
  - apply (f_equal String.length) in H. cbn in H.
    rewrite string_app_length in H. lia.
  - cbn in H. injection H as -> H. f_equal. exact (IH _ H).
Qed.

Lemma unescape_escape_char (c : ascii) (rest : string) :
  unescape_char (json.escape_char c ++ rest) = Some (c, rest).
Proof.
  destruct c as [[] [] [] [] [] [] [] []]; reflexivity.
Qed.

(** An encoded string followed by its closing quote tells where it ends and
    what was encoded, whatever comes after. *)
Lemma escape_delimited_inj (s s' rest rest' : string) :
  json.escape s ++ json.dquote ++ rest
    = json.escape s' ++ json.dquote ++ rest' ->
  s = s' /\ rest = rest'.
Proof.
  revert s'. induction s as [ | c s IH]; intros [ | c' s'] H.
  - cbn in H. injection H as H. split; [reflexivity | exact H].
  - apply (f_equal unescape_char) in H. cbn [json.escape] in H.
    rewrite string_app_assoc, unescape_escape_char in H. discriminate H.
  - apply (f_equal unescape_char) in H. cbn [json.escape] in H.
    rewrite string_app_assoc, unescape_escape_char in H. discriminate H.
  - apply (f_equal unescape_char) in H. cbn [json.escape] in H.
    rewrite !string_app_assoc, !unescape_escape_char in H.
    injection H as -> H. destruct (IH _ H) as [-> ->]. split; reflexivity.
Qed.

Lemma printable_ascii_app (a b : string) :
  printable_ascii (a ++ b) = printable_ascii a && printable_ascii b.
Proof.
  induction a as [ | x a IH]; cbn; [reflexivity | ].
  rewrite IH. now rewrite andb_assoc.
Qed.

Lemma contains_app (c : ascii) (a b : string) :
  contains c (a ++ b) = contains c a || contains c b.
Proof.
  induction a as [ | x a IH]; cbn; [reflexivity | ].
  rewrite IH. now rewrite orb_assoc.
Qed.

Lemma escape_char_printable (c : ascii) :
  printable_ascii (json.escape_char c) = true.
Proof.
  destruct c as [[] [] [] [] [] [] [] []]; reflexivity.
Qed.

Lemma escape_printable (s : string) : printable_ascii (json.escape s) = true.
Proof.
  induction s as [ | c s IH]; cbn [json.escape]; [reflexivity | ].
  now rewrite printable_ascii_app, escape_char_printable, IH.
Qed.

(** The decimal text of an integer: digits and a sign, nothing else. *)
Lemma string_of_uint_digits (d : Decimal.uint) :
  printable_ascii (NilEmpty.string_of_uint d) = true /\
  contains "/" (NilEmpty.string_of_uint d) = false.
Proof.
  induction d as [ | d [IH1 IH2] | d [IH1 IH2] | d [IH1 IH2] | d [IH1 IH2]
                   | d [IH1 IH2] | d [IH1 IH2] | d [IH1 IH2] | d [IH1 IH2]
                   | d [IH1 IH2] | d [IH1 IH2]];
    cbn; auto.
Qed.

Lemma py_str_int_digits (n : Z) :
  printable_ascii (py_str_int n) = true /\
  contains "/" (py_str_int n) = false.
Proof.
  unfold py_str_int, NilZero.string_of_int, NilZero.string_of_uint.
  destruct (Z.to_int n) as [d | d];
    destruct (string_of_uint_digits d) as [H1 H2];
    destruct d; cbn in *; auto.
Qed.

(** [int(str(n)) == n]: the decimal text tells the integer. *)
Lemma py_str_int_inj (n n' : Z) : py_str_int n = py_str_int n' -> n = n'.
Proof.
  unfold py_str_int. intros H.
  apply DecimalZ.to_int_inj.
  assert (Hparse : forall z,
            NilZero.int_of_string (NilZero.string_of_int (Z.to_int z))
              = Some (Z.to_int z)).
  { intros z. apply NilZero.isi; destruct z; cbn; try discriminate;
      intros [= Hnil]; exact (Unsigned.to_uint_nonnil _ Hnil). }
  apply (f_equal NilZero.int_of_string) in H.
  rewrite !Hparse in H. now injection H.
Qed.

(** The text after the last slash and the text before it. *)
Lemma split_at_last_slash (a a' t t' : string) :
  contains "/" t = false -> contains "/" t' = false ->
  a ++ "/" ++ t = a' ++ "/" ++ t' ->
  a = a' /\ t = t'.
Proof.
  intros Ht Ht'. revert a'.
  induction a as [ | x a IH]; intros [ | x' a'] H.
  - cbn in H. injection H as H. split; [reflexivity | exact H].
  - cbn in H. injection H as <- H. subst t.
    rewrite contains_app in Ht. cbn in Ht.
    rewrite orb_true_r in Ht. discriminate Ht.
  - cbn in H. injection H as -> H. subst t'.
    rewrite contains_app in Ht'. cbn in Ht'.
    rewrite orb_true_r in Ht'. discriminate Ht'.
  - cbn in H. injection H as -> H.
    destruct (IH _ H) as [-> ->]. split; reflexivity.
Qed.

Lemma register_body_text (username password : string) :
  json.dumps (JObject [("username", JString username);
                       ("password", JString password)])
  = "{" ++ json.dquote ++ "username" ++ json.dquote ++ ": "
      ++ json.dquote ++ json.escape username ++ json.dquote ++ ", "
      ++ json.dquote ++ "password" ++ json.dquote ++ ": "
      ++ json.dquote ++ json.escape password ++ json.dquote ++ "}".
Proof.
  cbn. unfold json.encode_string. cbn.
  repeat (rewrite string_app_assoc; cbn). reflexivity.
Qed.

Lemma vote_body_text (option_id : Z) :
  json.dumps (JObject [("option_id", JInt option_id)])
  = "{" ++ json.dquote ++ "option_id" ++ json.dquote ++ ": "
      ++ py_str_int option_id ++ "}".
Proof. reflexivity. Qed.

Lemma Some_eq_inv {A : Type} (x y : A) : Some x = Some y -> x = y.
Proof. congruence. Qed.

Lemma register_request_inj
    (username password base_url username' password' base_url' : string) :
  register_request username password base_url
    = register_request username' password' base_url' ->
  username = username' /\ password = password' /\ base_url = base_url'.
Proof.
  intros H.
  pose proof (f_equal url H) as Hurl.
  pose proof (f_equal data H) as Hdata.
  cbn [url data register_request] in Hurl, Hdata.
  apply string_app_inv_tail in Hurl.
  apply Some_eq_inv in Hdata.
  rewrite !register_body_text in Hdata.
  repeat apply string_app_inv_head in Hdata.
  apply escape_delimited_inj in Hdata. destruct Hdata as [Hu Hdata].
  repeat apply string_app_inv_head in Hdata.
  apply escape_delimited_inj in Hdata. destruct Hdata as [Hp _].
  auto.
Qed.

Lemma polls_request_inj (skip limit skip' limit' : Z)
    (base_url base_url' : string) :
  polls_request skip limit base_url = polls_request skip' limit' base_url' ->
  skip = skip' /\ limit = limit' /\ base_url = base_url'.
Proof.
  unfold polls_request. intros H.
  injection H as Hurl Hskip Hlimit.
  apply string_app_inv_tail in Hurl. auto.
Qed.

Lemma poll_url_shape (base_url id tail : string) :
  base_url ++ "/polls/" ++ id ++ tail
    = ((base_url ++ "/polls") ++ "/" ++ id) ++ tail.
Proof.
  rewrite !string_app_assoc. reflexivity.
Qed.

Lemma poll_url_inj (base_url base_url' tail : string) (poll_id poll_id' : Z) :
  base_url ++ "/polls/" ++ py_str_int poll_id ++ tail
    = base_url' ++ "/polls/" ++ py_str_int poll_id' ++ tail ->
  base_url = base_url' /\ poll_id = poll_id'.
Proof.
  intros H. rewrite !poll_url_shape in H.
  apply string_app_inv_tail in H.
  apply split_at_last_slash in H; try apply py_str_int_digits.
  destruct H as [Hbase Hid].
  apply string_app_inv_tail in Hbase. apply py_str_int_inj in Hid. auto.
Qed.

Lemma vote_request_inj (poll_id option_id poll_id' option_id' : Z)
    (access_token base_url access_token' base_url' : string) :
  vote_request poll_id option_id access_token base_url
    = vote_request poll_id' option_id' access_token' base_url' ->
  poll_id = poll_id' /\ option_id = option_id' /\
  access_token = access_token' /\ base_url = base_url'.
Proof.
  intros H.
  pose proof (f_equal url H) as Hurl.
  pose proof (f_equal headers H) as Htoken.
  pose proof (f_equal data H) as Hdata.
  cbn [url headers data vote_request] in Hurl, Htoken, Hdata.
  apply poll_url_inj in Hurl. destruct Hurl as [Hbase Hpoll].
  apply (f_equal (fun l => match l with
                           | [_; (_, value)] => value
                           | _ => EmptyString
                           end)) in Htoken.
  apply (string_app_inv_head "Bearer ") in Htoken.
  apply Some_eq_inv in Hdata.
  rewrite !vote_body_text in Hdata.
  repeat apply string_app_inv_head in Hdata.
  apply string_app_inv_tail in Hdata. apply py_str_int_inj in Hdata.
  auto.
Qed.

Lemma results_request_inj (poll_id poll_id' : Z)
    (base_url base_url' : string) :
  results_request poll_id base_url = results_request poll_id' base_url' ->
  poll_id = poll_id' /\ base_url = base_url'.
Proof.
  intros H.
  pose proof (f_equal url H) as Hurl.
  cbn [url results_request] in Hurl.
  apply poll_url_inj in Hurl. destruct Hurl as [Hbase Hpoll]. auto.
Qed.

Lemma last_sent_inj (log : list Request) (rq rq' : Request) :
  (log ++ [rq])%list = (log ++ [rq'])%list -> rq = rq'.
Proof.
  intros H. apply app_inv_head in H. now injection H.
Qed.

(** Two calls of [register_user] that send the same request were given the
    same username, password and base address, for the strings of the model
    (code points below 256): the JSON escaping keeps apart any two such
    credentials, whatever quotes, commas or backslashes they hold. *)
Theorem register_user_request_determines_arguments {Server : Type}
    (serve : Request -> Server -> Reply * Server) (w : World Server)
    (username password base_url username' password' base_url' : string) :
  sent (snd (register_user serve username password base_url w))
    = sent (snd (register_user serve username' password' base_url' w)) ->
  username = username' /\ password = password' /\ base_url = base_url'.
Proof.
  rewrite !register_user_run. cbn [snd after sent].
  intros H. apply last_sent_inj in H.
  now apply register_request_inj.
Qed.

Lemma register_user_request_determines_arguments_witness :
  "alice" = "alice" /\ "pw123" = "pw123"
  /\ default_base_url = default_base_url.
Proof.
  apply (register_user_request_determines_arguments
           (always (mkResponse 200 (Some alice_record))) fresh
           "alice" "pw123" default_base_url
           "alice" "pw123" default_base_url).
  reflexivity.
Defined.

(** A password made to look like the end of the object and the start of
    another field still gives a body of its own. *)
Example register_user_no_field_injection :
  data (register_request "bob"
          ("x" ++ json.dquote ++ ", " ++ json.dquote ++ "admin"
               ++ json.dquote ++ ": " ++ json.dquote ++ "yes")
          default_base_url)
  = Some ("{" ++ json.dquote ++ "username" ++ json.dquote ++ ": "
          ++ json.dquote ++ "bob" ++ json.dquote ++ ", "
          ++ json.dquote ++ "password" ++ json.dquote ++ ": "
          ++ json.dquote
          ++ "x" ++ json.backslash ++ json.dquote ++ ", "
          ++ json.backslash ++ json.dquote ++ "admin"
          ++ json.backslash ++ json.dquote ++ ": "
          ++ json.backslash ++ json.dquote ++ "yes"
          ++ json.dquote ++ "}").
Proof. reflexivity. Qed.

Lemma sent_one_more (log : list Request) (rq : Request) :
  (log ++ [rq])%list <> log.
Proof.
  intros H. apply (f_equal (@List.length Request)) in H.
  rewrite length_app in H. cbn in H. lia.
Qed.

(** Two calls of [vote_on_poll] that leave the same log, the first with ids
    within the digit limit so that it sends its request, were given the
    same poll, option, token and base address. *)
Theorem vote_on_poll_request_determines_arguments {Server : Type}
    (serve : Request -> Server -> Reply * Server) (w : World Server)
    (poll_id option_id poll_id' option_id' : Z)
    (access_token base_url access_token' base_url' : string) :
  int_str_ok poll_id = true -> int_str_ok option_id = true ->
  sent (snd (vote_on_poll serve poll_id option_id access_token base_url w))
    = sent (snd (vote_on_poll serve poll_id' option_id'
                   access_token' base_url' w)) ->
  poll_id = poll_id' /\ option_id = option_id' /\
  access_token = access_token' /\ base_url = base_url'.
Proof.
  intros Hpoll Hoption.
  rewrite vote_on_poll_run_ok by assumption.
  rewrite (vote_on_poll_run serve poll_id').
  destruct (int_str_ok poll_id' && int_str_ok option_id');
    cbn [snd after sent]; intros H.
  - apply last_sent_inj in H. now apply vote_request_inj.
  - exfalso. exact (sent_one_more _ _ H).
Qed.

Lemma vote_on_poll_request_determines_arguments_witness :
  1 = 1 /\ 2 = 2 /\ "token" = "token" /\ default_base_url = default_base_url.
Proof.
  apply (vote_on_poll_request_determines_arguments
           (always (mkResponse 200 (Some vote_record))) fresh
           1 2 1 2 "token" default_base_url "token" default_base_url
           (int_str_ok_small 1 eq_refl) (int_str_ok_small 2 eq_refl)).
  reflexivity.
Defined.

(** The same for the two GET functions: the request of [get_polls] tells
    skip, limit and base address, and the request of [get_poll_results],
    sent when the poll id is within the digit limit, tells the poll and the
    base address. *)
Theorem get_requests_determine_arguments {Server : Type}
    (serve : Request -> Server -> Reply * Server) (w : World Server) :
  (forall skip limit base_url skip' limit' base_url',
     sent (snd (get_polls serve skip limit base_url w))
       = sent (snd (get_polls serve skip' limit' base_url' w)) ->
     skip = skip' /\ limit = limit' /\ base_url = base_url') /\
  (forall poll_id base_url poll_id' base_url',
     int_str_ok poll_id = true ->
     sent (snd (get_poll_results serve poll_id base_url w))
       = sent (snd (get_poll_results serve poll_id' base_url' w)) ->
     poll_id = poll_id' /\ base_url = base_url').
Proof.
  split.
  - intros skip limit base_url skip' limit' base_url'.
    rewrite !get_polls_run. cbn [snd after sent].
    intros H. apply last_sent_inj in H.
    now apply polls_request_inj.
  - intros poll_id base_url poll_id' base_url' Hpoll.
    rewrite get_poll_results_run_ok by assumption.
    rewrite (get_poll_results_run serve poll_id').
    destruct (int_str_ok poll_id'); cbn [snd after sent]; intros H.
    + apply last_sent_inj in H. now apply results_request_inj.
    + exfalso. exact (sent_one_more _ _ H).
Qed.

Lemma get_requests_determine_arguments_witness :
  (0 = 0 /\ 5 = 5 /\ default_base_url = default_base_url)
  /\ (7 = 7 /\ default_base_url = default_base_url).
Proof.
  split.
  - apply (proj1 (get_requests_determine_arguments unreachable fresh)
             0 5 default_base_url 0 5 default_base_url).
    reflexivity.
  - apply (proj2 (get_requests_determine_arguments unreachable fresh)
             7 default_base_url 7 default_base_url
             (int_str_ok_small 7 eq_refl)).
    reflexivity.
Defined.

(** The bodies [register_user] and [vote_on_poll] send are printable ASCII
    for every username and password of the model (characters below 256)
    and every option id within the digit limit: [json.dumps] escapes every
    other character. *)
Theorem request_bodies_are_printable_ascii {Server : Type}
    (serve : Request -> Server -> Reply * Server) (w : World Server) :
  (forall username password base_url,
     exists rq body,
       sent (snd (register_user serve username password base_url w))
         = (sent w ++ [rq])%list /\
       data rq = Some body /\ printable_ascii body = true) /\
  (forall poll_id option_id access_token base_url,
     int_str_ok poll_id = true -> int_str_ok option_id = true ->
     exists rq body,
       sent (snd (vote_on_poll serve poll_id option_id
                    access_token base_url w))
         = (sent w ++ [rq])%list /\
       data rq = Some body /\ printable_ascii body = true).
Proof.
  split.
  - intros username password base_url.
    exists (register_request username password base_url).
    eexists. rewrite register_user_run.
    split; [reflexivity | ]. split; [reflexivity | ].
    rewrite register_body_text.
    rewrite !printable_ascii_app, !escape_printable. reflexivity.
  - intros poll_id option_id access_token base_url Hpoll Hoption.
    exists (vote_request poll_id option_id access_token base_url).
    eexists. rewrite vote_on_poll_run_ok by assumption.
    split; [reflexivity | ]. split; [reflexivity | ].
    rewrite vote_body_text.
    rewrite !printable_ascii_app.
    rewrite (proj1 (py_str_int_digits option_id)). reflexivity.
Qed.

Lemma request_bodies_are_printable_ascii_witness :
  exists rq body,
    sent (snd (vote_on_poll unreachable 1 2 "token" default_base_url fresh))
      = ([] ++ [rq])%list /\
    data rq = Some body /\ printable_ascii body = true.
Proof.
  apply (proj2 (request_bodies_are_printable_ascii unreachable fresh)
           1 2 "token" default_base_url
           (int_str_ok_small 1 eq_refl) (int_str_ok_small 2 eq_refl)).
Defined.

(** ** The script *)

Lemma ints_ok_subscript (container value : Json) (key : string) :
  json.ints_ok container = true ->
  subscript container key = inr value ->
  json.ints_ok value = true.
Proof.
  unfold subscript. destruct container; try discriminate.
  cbn [json.ints_ok]. intros Hall.
  destruct (find _ fields) as [[k v] | ] eqn:Hfind; [ | discriminate].
  intros [= <-]. apply find_some in Hfind. destruct Hfind as [Hin _].
  rewrite forallb_forall in Hall. exact (Hall _ Hin).
Qed.

Lemma poll_line_ok (poll : Json) :
  json.ints_ok poll = true -> printable_poll poll ->
  exists line, poll_line poll = inr line.
Proof.
  intros Hints [question [id [Hquestion Hid]]].
  unfold poll_line, format_field. rewrite Hquestion, Hid.
  rewrite (ints_ok_subscript _ _ _ Hints Hquestion).
  rewrite (ints_ok_subscript _ _ _ Hints Hid).
  eexists. reflexivity.
Qed.

Lemma poll_line_bad (poll : Json) :
  json.ints_ok poll = true -> ~ printable_poll poll ->
  exists e, poll_line poll = inl e /\
    (e = KeyError "question" \/ e = KeyError "id" \/ e = TypeError).
Proof.
  intros Hints Hbad. unfold poll_line, format_field.
  destruct (subscript poll "question") as [e | question] eqn:Hquestion.
  - exists e. split; [reflexivity | ].
    unfold subscript in Hquestion. destruct poll; try (injection Hquestion as <-; auto).
    destruct (find _ fields) as [[k v] | ]; [discriminate | ].
    injection Hquestion as <-. auto.
  - rewrite (ints_ok_subscript _ _ _ Hints Hquestion).
    destruct (subscript poll "id") as [e | id] eqn:Hid.
    + exists e. split; [reflexivity | ].
      unfold subscript in Hid. destruct poll; try (injection Hid as <-; auto).
      destruct (find _ fields) as [[k v] | ]; [discriminate | ].
      injection Hid as <-. auto.
    + exfalso. apply Hbad. exists question, id. split; assumption.
Qed.

Lemma poll_line_error (poll : Json) (e : Error) :
  poll_line poll = inl e ->
  e = KeyError "question" \/ e = KeyError "id" \/ e = TypeError \/
  e = ClientError IntDigitsError.
Proof.
  unfold poll_line, format_field, subscript.
  destruct poll; try (intros [= <-]; auto).
  destruct (find _ fields) as [[k question] | ]; [ | intros [= <-]; auto].
  destruct (json.ints_ok question); [ | intros [= <-]; auto 6].
  destruct (find _ fields) as [[k' id] | ]; [ | intros [= <-]; auto].
  destruct (json.ints_ok id); [discriminate | intros [= <-]; auto 6].
Qed.

Section ScriptRuns.

Variable encodable : string -> bool.

Lemma print_polls_all (polls : list Json) (stdout : list string) :
  (forall line, encodable line = true) ->
  forallb json.ints_ok polls = true ->
  Forall printable_poll polls ->
  exists lines,
    print_polls encodable polls stdout = (None, (stdout ++ lines)%list) /\
    Forall2 (fun poll line => poll_line poll = inr line) polls lines.
Proof.
  intros Hprint Hints Hall. revert stdout.
  induction Hall as [ | poll polls Hpoll _ IH]; intros stdout.
  - exists []. cbn. rewrite app_nil_r. split; [reflexivity | constructor].
  - cbn [forallb] in Hints. apply andb_true_iff in Hints.
    destruct Hints as [Hpoll_ints Hrest].
    destruct (poll_line_ok poll Hpoll_ints Hpoll) as [line Hline].
    destruct (IH Hrest (stdout ++ [line])%list) as [lines [Hrun Hlines]].
    exists (line :: lines). cbn [print_polls]. unfold print.
    rewrite Hline, Hprint, Hrun.
    rewrite <- app_assoc. split; [reflexivity | ].
    constructor; assumption.
Qed.

Lemma print_polls_stops (good rest : list Json) (bad : Json)
    (stdout : list string) :
  (forall line, encodable line = true) ->
  forallb json.ints_ok (good ++ bad :: rest) = true ->
  Forall printable_poll good ->
  ~ printable_poll bad ->
  exists e lines,
    print_polls encodable (good ++ bad :: rest) stdout
      = (Some e, (stdout ++ lines)%list) /\
    Forall2 (fun poll line => poll_line poll = inr line) good lines /\
    poll_line bad = inl e /\
    (e = KeyError "question" \/ e = KeyError "id" \/ e = TypeError).
Proof.
  intros Hprint Hints Hgood Hbad. revert stdout.
  induction Hgood as [ | poll good Hpoll _ IH]; intros stdout.
  - cbn [app forallb] in Hints. apply andb_true_iff in Hints.
    destruct (poll_line_bad bad (proj1 Hints) Hbad) as [e [Hline Hkind]].
    exists e, []. cbn. rewrite Hline, app_nil_r.
    split; [reflexivity | ]. split; [constructor | ]. split; auto.
  - cbn [app forallb] in Hints. apply andb_true_iff in Hints.
    destruct Hints as [Hpoll_ints Hrest].
    destruct (poll_line_ok poll Hpoll_ints Hpoll) as [line Hline].
    destruct (IH Hrest (stdout ++ [line])%list)
      as [e [lines [Hrun [Hlines [Hbadline Hkind]]]]].
    exists e, (line :: lines). cbn [print_polls app]. unfold print.
    rewrite Hline, Hprint, Hrun.
    rewrite <- app_assoc. split; [reflexivity | ].
    split; [constructor; assumption | ]. split; assumption.
Qed.

Lemma print_polls_error (polls : list Json) (stdout stdout' : list string)
    (e : Error) :
  print_polls encodable polls stdout = (Some e, stdout') ->
  e = KeyError "question" \/ e = KeyError "id" \/ e = TypeError \/
  e = ClientError IntDigitsError \/ e = UnicodeEncodeError.
Proof.
  revert stdout. induction polls as [ | poll polls IH]; intros stdout.
  - discriminate.
  - cbn [print_polls]. destruct (poll_line poll) as [e' | line] eqn:Hline.
    + intros [= <- _]. pose proof (poll_line_error _ _ Hline) as H.
      intuition.
    + unfold print. destruct (encodable line).
      * apply IH.
      * intros [= <- _]. auto 6.
Qed.

Lemma print_report_error (polls : Json) (stdout : list string) (e : Error) :
  print_report encodable polls = (Some e, stdout) ->
  e = KeyError "question" \/ e = KeyError "id" \/ e = TypeError \/
  e = ClientError IntDigitsError \/ e = UnicodeEncodeError.
Proof.
  unfold print_report, print.
  destruct (py_len polls); [ | intros [= <- _]; auto].
  destruct (encodable _); [ | intros [= <- _]; auto 6].
  destruct (py_iter polls); [ | intros [= <- _]; auto].
  apply print_polls_error.
Qed.

End ScriptRuns.

(** When [get_polls] raises, the script prints at most one line.  A
    [RecursionError] of the decoder is caught by no clause and ends the
    script with its traceback.  Every other exception is caught: the script
    prints [Error: ] for a [ValueError] (the decoder's errors, a bad URL or
    header) and [Request error: ] otherwise, followed by [str(e)], and ends
    normally, unless stdout cannot write that line, which ends it with the
    traceback of [print]. *)
Theorem main_reports_client_errors {Server : Type}
    (serve : Request -> Server -> Reply * Server)
    (describe : Error -> string) (encodable : string -> bool)
    (w : World Server) (e : Exception) :
  fst (get_polls serve 0 5 default_base_url w) = Raised e ->
  (e = RecursionError ->
   main serve describe encodable w
   = (Traceback (ClientError RecursionError), [],
      snd (get_polls serve 0 5 default_base_url w))) /\
  (e <> RecursionError ->
   main serve describe encodable w
   = (let line :=
        (if is_ValueError (ClientError e)
         then "Error: " else "Request error: ")
        ++ error_str describe (ClientError e) in
      if encodable line
      then (Finished, [line], snd (get_polls serve 0 5 default_base_url w))
      else (Traceback UnicodeEncodeError, [],
            snd (get_polls serve 0 5 default_base_url w)))).
Proof.
  unfold main.
  destruct (get_polls serve 0 5 default_base_url w) as [outcome w'].
  cbn [fst snd]. intros ->. split.
  - intros ->. reflexivity.
  - intros Hnot.
    destruct e as [message | response | | [] | | ];
      try contradiction; cbn; unfold print;
      destruct (encodable _); reflexivity.
Qed.

Lemma main_reports_client_errors_witness :
  main (always (mkResponse 503 None)) (fun _ => "503 Server Error")
    any_text fresh
  = (Finished, ["Request error: 503 Server Error"],
     mkWorld [polls_request 0 5 default_base_url] tt)
  /\ main (always (Build_Response 200 None NestedTooDeep)) (fun _ => "")
       any_text fresh
  = (Traceback (ClientError RecursionError), [],
     mkWorld [polls_request 0 5 default_base_url] tt).
Proof.
  split.
  - apply (proj2 (main_reports_client_errors
                    (always (mkResponse 503 None))
                    (fun _ => "503 Server Error") any_text
                    fresh (HTTPError (mkResponse 503 None)) eq_refl)).
    discriminate.
  - apply (proj1 (main_reports_client_errors
                    (always (Build_Response 200 None NestedTooDeep))
                    (fun _ => "") any_text
                    fresh RecursionError eq_refl)).
    reflexivity.
Defined.

(** The third and fourth [except] clauses of the script are dead: whatever
    the exception, the clause that catches it is one of the first two, so
    the script behaves as if it had only those; in particular
    [Registration error: ] is never printed. *)
Theorem later_except_clauses_are_dead (e : Error) :
  first_match except_clauses 0 e
    = first_match (firstn 2 except_clauses) 0 e /\
  (forall position text,
     first_match except_clauses 0 e = Some (position, text) ->
     (position < 2)%nat /\ text <> "Registration error: ").
Proof.
  destruct e as [[message | response | | [] | | ] | key | | ]; cbn;
    (split; [reflexivity | ]);
    intros position text [= <- <-]; (split; [lia | discriminate]).
Qed.

Lemma later_except_clauses_are_dead_witness :
  (0 < 2)%nat /\ "Error: " <> "Registration error: ".
Proof.
  apply (proj2 (later_except_clauses_are_dead
                  (ClientError (ValueError "Username already registered")))
           0%nat "Error: ").
  reflexivity.
Defined.

(** When the service answers with a status that is not from 400 to 599 and
    a JSON array of polls that all have the keys [question] and [id], whose
    integers are within the digit limit (as in every value the decoder
    gives), and stdout can write every line, the script ends normally after
    printing the count of the polls and then one line for each poll, in
    the order of the array. *)
Theorem main_prints_every_poll {Server : Type}
    (serve : Request -> Server -> Reply * Server)
    (describe : Error -> string) (encodable : string -> bool)
    (w : World Server) (response : Response) (items : list Json) :
  reply_to serve (polls_request 0 5 default_base_url) w = Answer response ->
  ~ (400 <= status_code response < 600) ->
  json_body response = Some (JArray items) ->
  json.ints_ok (JArray items) = true ->
  Forall printable_poll items ->
  (forall line, encodable line = true) ->
  exists lines,
    main serve describe encodable w
    = (Finished,
       ("Retrieved " ++ py_str_int (Z.of_nat (List.length items))
          ++ " polls:") :: lines,
       after serve (polls_request 0 5 default_base_url) w) /\
    Forall2 (fun poll line => poll_line poll = inr line) items lines.
Proof.
  intros Hreply Hstatus Hbody Hints Hitems Hprint.
  unfold main. rewrite get_polls_run, Hreply.
  replace ((400 <=? status_code response) && (status_code response <? 600))
    with false by (symmetry; status_cases).
  unfold decoded. rewrite Hbody.
  unfold print_report, print. cbn [py_len py_iter]. rewrite Hprint.
  cbn [json.ints_ok] in Hints.
  set (header := "Retrieved " ++ py_str_int (Z.of_nat (List.length items))
                   ++ " polls:").
  destruct (print_polls_all encodable items [header] Hprint Hints Hitems)
    as [lines [Hrun Hlines]].
  exists lines. cbn [app]. rewrite Hrun.
  split; [reflexivity | exact Hlines].
Qed.

Lemma two_polls_printable : Forall printable_poll two_polls.
Proof.
  repeat constructor; eexists; eexists; split; reflexivity.
Qed.

Lemma two_polls_ints_ok : json.ints_ok (JArray two_polls) = true.
Proof.
  cbn. rewrite (int_str_ok_small 1), (int_str_ok_small 2) by reflexivity.
  reflexivity.
Qed.

Lemma main_prints_every_poll_witness :
  exists lines,
    main (always (mkResponse 200 (Some (JArray two_polls))))
      (fun _ => "") any_text fresh
    = (Finished,
       ("Retrieved " ++ py_str_int (Z.of_nat (List.length two_polls))
          ++ " polls:") :: lines,
       after (always (mkResponse 200 (Some (JArray two_polls))))
         (polls_request 0 5 default_base_url) fresh) /\
    Forall2 (fun poll line => poll_line poll = inr line) two_polls lines.
Proof.
  apply (main_prints_every_poll
           (always (mkResponse 200 (Some (JArray two_polls))))
           (fun _ => "") any_text fresh
           (mkResponse 200 (Some (JArray two_polls))) two_polls eq_refl).
  - cbn. lia.
  - reflexivity.
  - exact two_polls_ints_ok.
  - exact two_polls_printable.
  - reflexivity.
Defined.

Example main_output_for_two_polls :
  main (always (mkResponse 200 (Some (JArray two_polls)))) (fun _ => "")
    any_text fresh
  = (Finished,
     ["Retrieved 2 polls:";
      "  - Tabs or spaces? (ID: 1)";
      "  - Vim or Emacs? (ID: 2)"],
     mkWorld [polls_request 0 5 default_base_url] tt).
Proof. vm_compute. reflexivity. Qed.

(** The loop of the script handles no error of a malformed poll: when the
    body is an array the decoder can give and stdout can write every line,
    then at the first poll that is not a dict with the keys [question] and
    [id] the script ends with a traceback ([KeyError] or [TypeError], which
    no clause catches), after the count, which counted every poll, and the
    lines of the polls before that one; nothing is printed for the polls
    after it. *)
Theorem main_stops_at_first_unprintable_poll {Server : Type}
    (serve : Request -> Server -> Reply * Server)
    (describe : Error -> string) (encodable : string -> bool)
    (w : World Server)
    (response : Response) (good rest : list Json) (bad : Json) :
  reply_to serve (polls_request 0 5 default_base_url) w = Answer response ->
  ~ (400 <= status_code response < 600) ->
  json_body response = Some (JArray (good ++ bad :: rest)) ->
  json.ints_ok (JArray (good ++ bad :: rest)) = true ->
  Forall printable_poll good ->
  ~ printable_poll bad ->
  (forall line, encodable line = true) ->
  exists e lines,
    main serve describe encodable w
    = (Traceback e,
       ("Retrieved "
          ++ py_str_int (Z.of_nat (List.length (good ++ bad :: rest)))
          ++ " polls:") :: lines,
       after serve (polls_request 0 5 default_base_url) w) /\
    Forall2 (fun poll line => poll_line poll = inr line) good lines /\
    poll_line bad = inl e /\
    (e = KeyError "question" \/ e = KeyError "id" \/ e = TypeError).
Proof.
  intros Hreply Hstatus Hbody Hints Hgood Hbad Hprint.
  unfold main. rewrite get_polls_run, Hreply.
  replace ((400 <=? status_code response) && (status_code response <? 600))
    with false by (symmetry; status_cases).
  unfold decoded. rewrite Hbody.
  unfold print_report, print. cbn [py_len py_iter]. rewrite Hprint.
  cbn [json.ints_ok] in Hints.
  set (header := "Retrieved "
                   ++ py_str_int (Z.of_nat (List.length (good ++ bad :: rest)))
                   ++ " polls:").
  destruct (print_polls_stops encodable good rest bad [header]
              Hprint Hints Hgood Hbad)
    as [e [lines [Hrun [Hlines [Hline Hkind]]]]].
  exists e, lines. cbn [app]. rewrite Hrun.
  split; [ | split; [exact Hlines | split; [exact Hline | exact Hkind]]].
  destruct Hkind as [-> | [-> | ->]]; reflexivity.
Qed.

Lemma main_stops_at_first_unprintable_poll_witness :
  exists e lines,
    main (always (mkResponse 200
                    (Some (JArray (two_polls
                                   ++ JObject [("id", JInt 3)]
                                   :: two_polls)))))
      (fun _ => "") any_text fresh
    = (Traceback e,
       ("Retrieved "
          ++ py_str_int
               (Z.of_nat (List.length (two_polls
                                       ++ JObject [("id", JInt 3)]
                                       :: two_polls)))
          ++ " polls:") :: lines,
       after (always (mkResponse 200
                        (Some (JArray (two_polls
                                       ++ JObject [("id", JInt 3)]
                                       :: two_polls)))))
         (polls_request 0 5 default_base_url) fresh) /\
    Forall2 (fun poll line => poll_line poll = inr line) two_polls lines /\
    poll_line (JObject [("id", JInt 3)]) = inl e /\
    (e = KeyError "question" \/ e = KeyError "id" \/ e = TypeError).
Proof.
  apply (main_stops_at_first_unprintable_poll
           (always (mkResponse 200
                      (Some (JArray (two_polls
                                     ++ JObject [("id", JInt 3)]
                                     :: two_polls)))))
           (fun _ => "") any_text fresh
           (mkResponse 200
              (Some (JArray (two_polls
                             ++ JObject [("id", JInt 3)] :: two_polls))))
           two_polls two_polls (JObject [("id", JInt 3)]) eq_refl).
  - cbn. lia.
  - reflexivity.
  - cbn. rewrite (int_str_ok_small 1), (int_str_ok_small 2),
      (int_str_ok_small 3) by reflexivity. reflexivity.
  - exact two_polls_printable.
  - intros [question [id [Hquestion _]]]. discriminate Hquestion.
  - reflexivity.
Defined.

Example main_output_before_a_poll_without_question :
  main (always (mkResponse 200
                  (Some (JArray (two_polls
                                 ++ JObject [("id", JInt 3)] :: two_polls)))))
    (fun _ => "") any_text fresh
  = (Traceback (KeyError "question"),
     ["Retrieved 5 polls:";
      "  - Tabs or spaces? (ID: 1)";
      "  - Vim or Emacs? (ID: 2)"],
     mkWorld [polls_request 0 5 default_base_url] tt).
Proof. vm_compute. reflexivity. Qed.

(** A traceback of the script is never an HTTP error, a failure of the
    transport, a JSON decode error or another [ValueError]: those are all
    caught.  It is a [KeyError] for [question] or [id] or a [TypeError]
    from the body, the [RecursionError] of the decoder, or the
    [UnicodeEncodeError] of the [print] inside an [except] clause. *)
Theorem main_traceback_kinds {Server : Type}
    (serve : Request -> Server -> Reply * Server)
    (describe : Error -> string) (encodable : string -> bool)
    (w : World Server) (e : Error) :
  fst (fst (main serve describe encodable w)) = Traceback e ->
  e = KeyError "question" \/ e = KeyError "id" \/ e = TypeError \/
  e = ClientError RecursionError \/ e = UnicodeEncodeError.
Proof.
  unfold main.
  destruct (get_polls serve 0 5 default_base_url w) as [[polls | raised] w'].
  - destruct (print_report encodable polls) as [[e' | ] stdout] eqn:Hreport.
    + pose proof (print_report_error _ _ _ _ Hreport) as Hkind.
      destruct Hkind as [-> | [-> | [-> | [-> | ->]]]]; cbn; unfold print;
        try destruct (encodable _); cbn; intros H;
        first [discriminate H | injection H as <-; auto 6].
    + cbn. discriminate.
  - destruct raised as [message | response | | [] | | ]; cbn; unfold print;
      try destruct (encodable _); cbn; intros H;
      first [discriminate H | injection H as <-; auto 6].
Qed.

Lemma main_traceback_kinds_witness :
  TypeError = KeyError "question" \/ TypeError = KeyError "id"
  \/ TypeError = TypeError \/ TypeError = ClientError RecursionError
  \/ TypeError = UnicodeEncodeError.
Proof.
  apply (main_traceback_kinds
           (always (mkResponse 200 (Some (JInt 3)))) (fun _ => "") any_text
           fresh TypeError).
  reflexivity.
Defined.
